(** * Result persistence layer of prefect: [src/prefect/results.py]

    A shallow embedding of the result store ([ResultStore]), the result
    record and its metadata ([ResultRecord], [ResultRecordMetadata]) and the
    persisted result reference ([PersistedResult]), with the properties of
    the specification proved over it.

    Conventions of the embedding.
    - Python [bytes] and [str] are both Rocq [string]s (sequences of 8-bit
      characters); a [str] is identified with its UTF-8 encoding, so
      [str.encode()] is the identity.
    - Python values that travel through records and JSON documents are the
      inductive type [value]; a [dict] is an insertion-ordered association
      list with string keys.
    - Stateful code is written in a state-and-exception monad [M S]: a
      computation either returns, raises an exception (keeping the state it
      reached) or never returns ([Hang], a wait on a lock that nobody will
      release in a sequential run).
    - The blocking and the suspending form of every operation share one
      body in the source ([sync_compatible]); one definition stands for
      both. *)

From Stdlib Require Import ZArith Lia Ascii.
From stdpp Require Import base option strings list gmap.

Open Scope string_scope.
Set Warnings "-register-all".

(** ** Python values *)

Abbreviation bytes := string (only parsing).

Inductive value : Type :=
  | VNone
  | VBool (b : bool)
  | VInt (z : Z)
  | VStr (s : string)
  | VBytes (b : bytes)
  | VList (l : list value)
  | VDict (d : list (string * value)).

Abbreviation pydict := (list (string * value)) (only parsing).

(** [k in d] *)
Fixpoint dict_has (k : string) (d : pydict) : bool :=
  match d with
  | [] => false
  | (k', _) :: d' => if String.eqb k k' then true else dict_has k d'
  end.

(** [d.get(k)] *)
Fixpoint dict_get (k : string) (d : pydict) : option value :=
  match d with
  | [] => None
  | (k', v) :: d' => if String.eqb k k' then Some v else dict_get k d'
  end.

(** [d[k] = v]: an existing key keeps its position, a new key is
    appended. *)
Fixpoint dict_set (k : string) (v : value) (d : pydict) : pydict :=
  match d with
  | [] => [(k, v)]
  | (k', v') :: d' =>
      if String.eqb k k' then (k', v) :: d' else (k', v') :: dict_set k v d'
  end.

(** [del d[k]], the state change of [d.pop(k)]. *)
Fixpoint dict_del (k : string) (d : pydict) : pydict :=
  match d with
  | [] => []
  | (k', v') :: d' =>
      if String.eqb k k' then dict_del k d' else (k', v') :: dict_del k d'
  end.

(** [v is None] *)
Definition is_None (v : value) : bool :=
  match v with
  | VNone => true
  | _ => false
  end.

(** Truthiness of an optional string: [None] and [""] are falsy. *)
Definition truthy (o : option string) : bool :=
  match o with
  | Some s => negb (String.eqb s "")
  | None => false
  end.

(** ** Exceptions *)

Inductive exn : Type :=
  | AssertionError
  | AttributeError
  | TypeError
  | ValueError
  | RuntimeError
  | ValidationError
  | FileNotFoundError
  | OSError
  | SerializationError
  | ConfigurationError
  | ObjectNotFound.

#[global] Instance exn_eq_dec : EqDecision exn.
Proof. solve_decision. Defined.

(** ** The state-and-exception monad *)

Inductive Res (S A : Type) : Type :=
  | Ok (a : A) (s : S)
  | Raise (e : exn) (s : S)
  | Hang.
Arguments Ok {S A} a s.
Arguments Raise {S A} e s.
Arguments Hang {S A}.

Definition M (S A : Type) : Type := S -> Res S A.

Definition ret {S A} (a : A) : M S A := fun s => Ok a s.

Definition bind {S A B} (m : M S A) (k : A -> M S B) : M S B :=
  fun s =>
    match m s with
    | Ok a s' => k a s'
    | Raise e s' => Raise e s'
    | Hang => Hang
    end.

Definition raise {S A} (e : exn) : M S A := fun s => Raise e s.

Definition hang {S A} : M S A := fun _ => Hang.

Definition gets {S A} (f : S -> A) : M S A := fun s => Ok (f s) s.

Definition modify {S} (f : S -> S) : M S unit := fun s => Ok tt (f s).

(** [try: m except Exception: h] *)
Definition try_except {S A} (m : M S A) (h : exn -> M S A) : M S A :=
  fun s =>
    match m s with
    | Ok a s' => Ok a s'
    | Raise e s' => h e s'
    | Hang => Hang
    end.

(** [x or m] on strings: the empty string is falsy. *)
Definition or_else {S} (x : string) (m : M S string) : M S string :=
  if String.eqb x "" then m else ret x.

(** [x or m] on optional strings: [None] and the empty string are falsy. *)
Definition or_else_opt {S} (x : option string) (m : M S string) : M S string :=
  match x with
  | Some s => or_else s m
  | None => m
  end.

(** [assert c] *)
Definition assert_ {S} (c : bool) : M S unit :=
  if c then ret tt else raise AssertionError.

(** A plain result (a value or an exception) used as a computation. *)
Definition of_sum {S A} (r : exn + A) : M S A :=
  match r with
  | inl e => raise e
  | inr a => ret a
  end.

(** Run a computation on the second component of a pair state: a method
    body (state: the object and the world) calling a free function
    (state: the world). *)
Definition lift {X W A} (m : M W A) : M (X * W) A :=
  fun '(x, w) =>
    match m w with
    | Ok a w' => Ok a (x, w')
    | Raise e w' => Raise e (x, w')
    | Hang => Hang
    end.

(** Run a method of a freshly built object [x] and drop the object
    afterwards. *)
Definition with_object {X W A} (x : X) (m : M (X * W) A) : M W A :=
  fun w =>
    match m (x, w) with
    | Ok a (_, w') => Ok a w'
    | Raise e (_, w') => Raise e w'
    | Hang => Hang
    end.

(** Sequencing of plain results. *)
Definition ebind {A B} (r : exn + A) (k : A -> exn + B) : exn + B :=
  match r with
  | inl e => inl e
  | inr a => k a
  end.

Declare Scope monad_scope.
Delimit Scope monad_scope with monad.
Notation "x <- m ;; k" := (bind m (fun x => k))
  (at level 100, m at next level, right associativity) : monad_scope.
Notation "m ;;; k" := (bind m (fun _ => k))
  (at level 100, right associativity) : monad_scope.
Notation "x <~ r ;; k" := (ebind r (fun x => k))
  (at level 100, r at next level, right associativity) : monad_scope.
Open Scope monad_scope.

(** ** The world outside the store

    Storage backends, lock managers, the block registry and the settings
    are consumed through narrow interfaces and are not part of
    [results.py]. The world records their state, and a trace of every call
    made to them (most recent first). *)

(** Identity of a live object (a storage block, a lock manager). *)
Abbreviation handle := nat (only parsing).

(** A misbehaviour injected into a backend read: the call returns [None]
    or raises. *)
Inductive anomaly : Type :=
  | ReturnsNone
  | Fails (e : exn).

Inductive event : Type :=
  | EvRead (h : handle) (path : string)
  | EvWrite (h : handle) (path : string) (content : bytes)
  | EvIsLocked (lm : handle) (key : string)
  | EvIsLockHolder (lm : handle) (key holder : string)
  | EvAcquire (lm : handle) (key holder : string)
  | EvRelease (lm : handle) (key holder : string)
  | EvWait (lm : handle) (key : string)
  | EvDefaultStorage
  | EvReadBlockDocument (id : string).

Record World : Type := mkWorld {
  (** content of every backend, by backend and path *)
  fs : gmap (handle * string) bytes;
  (** injected read misbehaviour, by backend and path *)
  read_anomaly : gmap (handle * string) anomaly;
  (** backends whose [write_path] raises *)
  write_fault : gmap handle exn;
  (** lock tables, by lock manager and key: the current holder *)
  locks : gmap (handle * string) string;
  (** what [get_default_result_storage()] resolves to *)
  default_storage : handle;
  (** [_block_document_id] of the saved blocks *)
  block_document_id : gmap handle string;
  (** the block registry: block document id to live block *)
  block_documents : gmap string handle;
  (** base path of the blocks that have [_resolve_path] *)
  basepath : gmap handle string;
  (** the values [uuid.uuid4().hex] will return, and how many were drawn *)
  uuid_pool : nat -> string;
  uuid_next : nat;
  hostname : string;
  pid : string;
  thread_id : string;
  thread_name : string;
  trace : list event
}.

Definition log (e : event) (w : World) : World :=
  mkWorld (fs w) (read_anomaly w) (write_fault w) (locks w)
    (default_storage w) (block_document_id w) (block_documents w)
    (basepath w) (uuid_pool w) (uuid_next w) (hostname w) (pid w)
    (thread_id w) (thread_name w) (e :: trace w).

Definition set_fs (f : gmap (handle * string) bytes) (w : World) : World :=
  mkWorld f (read_anomaly w) (write_fault w) (locks w)
    (default_storage w) (block_document_id w) (block_documents w)
    (basepath w) (uuid_pool w) (uuid_next w) (hostname w) (pid w)
    (thread_id w) (thread_name w) (trace w).

Definition set_locks (l : gmap (handle * string) string) (w : World) : World :=
  mkWorld (fs w) (read_anomaly w) (write_fault w) l
    (default_storage w) (block_document_id w) (block_documents w)
    (basepath w) (uuid_pool w) (uuid_next w) (hostname w) (pid w)
    (thread_id w) (thread_name w) (trace w).

Definition draw_uuid (w : World) : World :=
  mkWorld (fs w) (read_anomaly w) (write_fault w) (locks w)
    (default_storage w) (block_document_id w) (block_documents w)
    (basepath w) (uuid_pool w) (S (uuid_next w)) (hostname w) (pid w)
    (thread_id w) (thread_name w) (trace w).

(** Number of [write_path] calls in a trace. *)
Fixpoint count_writes (t : list event) : nat :=
  match t with
  | [] => 0
  | EvWrite _ _ _ :: t' => S (count_writes t')
  | _ :: t' => count_writes t'
  end.

(** The [read_path] calls of a trace that went to backend [h]. *)
Fixpoint reads_of (h : handle) (t : list event) : list string :=
  match t with
  | [] => []
  | EvRead h' p :: t' =>
      if Nat.eqb h h' then p :: reads_of h t' else reads_of h t'
  | _ :: t' => reads_of h t'
  end.

(** Modelled from the spec: the storage capability ([WritableFileSystem],
    outside [results.py]), "read_path(key) -> bytes | raises,
    write_path(key, bytes) -> void | raises". A read of a path that was
    never written raises; the injected anomalies stand for transient I/O
    errors and for a backend that answers [None]. *)
Module WritableFileSystem.

Definition read_path (h : handle) (path : string) : M World (option bytes) :=
    modify (log (EvRead h path)) ;;;
    w <- gets id ;;
    match read_anomaly w !! (h, path) with
    | Some ReturnsNone => ret None
    | Some (Fails e) => raise e
    | None =>
        match fs w !! (h, path) with
        | Some content => ret (Some content)
        | None => raise FileNotFoundError
        end
    end.

Definition write_path (h : handle) (path : string) (content : bytes)
    : M World unit :=
    modify (log (EvWrite h path content)) ;;;
    w <- gets id ;;
    match write_fault w !! h with
    | Some e => raise e
    | None => modify (set_fs (<[(h, path) := content]> (fs w)))
    end.

  (** [storage_block._resolve_path(key)] where the block has it. *)
Definition _resolve_path (h : handle) (key : string) : M World (option string) :=
    w <- gets id ;;
    ret (match basepath w !! h with
         | Some base => Some (base ++ "/" ++ key)
         | None => None
         end).

End WritableFileSystem.

(** An attribute access or call on an optional object: on [None] Python
    raises [AttributeError]. *)
Definition deref {S A} (o : option A) : M S A :=
  match o with
  | Some a => ret a
  | None => raise AttributeError
  end.

(** Modelled from the spec: the lock manager protocol ([LockManager],
    outside [results.py]): "acquire(key, holder, timeout?) -> bool (true if
    acquired or already held by holder; false only on timeout, never raises
    for contention), release(key, holder) (safe if not the holder),
    is_locked(key) -> bool, is_lock_holder(key, holder) -> bool,
    wait(key, timeout?) -> bool (block until free or timeout)". In a
    sequential run nobody else releases a lock, so a wait without a timeout
    on a lock held by somebody else never returns. *)
Module LockManager.

Definition is_locked (lm : handle) (key : string) : M World bool :=
    modify (log (EvIsLocked lm key)) ;;;
    w <- gets id ;;
    ret (bool_decide (is_Some (locks w !! (lm, key)))).

Definition is_lock_holder (lm : handle) (key holder : string) : M World bool :=
    modify (log (EvIsLockHolder lm key holder)) ;;;
    w <- gets id ;;
    ret (bool_decide (locks w !! (lm, key) = Some holder)).

Definition acquire_lock (lm : handle) (key holder : string)
      (timeout : option Z) : M World bool :=
    modify (log (EvAcquire lm key holder)) ;;;
    w <- gets id ;;
    match locks w !! (lm, key) with
    | None => modify (set_locks (<[(lm, key) := holder]> (locks w))) ;;; ret true
    | Some h =>
        if bool_decide (h = holder) then ret true
        else match timeout with
             | Some _ => ret false
             | None => hang
             end
    end.

Definition release_lock (lm : handle) (key holder : string) : M World unit :=
    modify (log (EvRelease lm key holder)) ;;;
    w <- gets id ;;
    if bool_decide (locks w !! (lm, key) = Some holder)
    then modify (set_locks (delete (lm, key) (locks w)))
    else ret tt.

Definition wait_for_lock (lm : handle) (key : string) (timeout : option Z)
    : M World bool :=
    modify (log (EvWait lm key)) ;;;
    w <- gets id ;;
    match locks w !! (lm, key) with
    | None => ret true
    | Some _ =>
        match timeout with
        | Some _ => ret false
        | None => hang
        end
    end.

End LockManager.

(** ** Module-level functions of [results.py] *)

(** [DEFAULT_STORAGE_KEY_FN]: [uuid.uuid4().hex]. *)
Definition DEFAULT_STORAGE_KEY_FN : M World string :=
  w <- gets id ;;
  modify draw_uuid ;;;
  ret (uuid_pool w (uuid_next w)).

(** [get_default_result_storage]: the block named by the settings, or a
    local file system; which one is the world's [default_storage]. *)
Definition get_default_result_storage : M World handle :=
  modify (log EvDefaultStorage) ;;;
  gets default_storage.

(** ** Capabilities consumed by the record layer *)

(** The JSON text layer of the model library ([model_dump_json],
    [model_validate_json]): a printer and a parser of documents, where
    parsing a printed JSON document gives the document back. *)
Fixpoint is_json (v : value) : bool :=
  match v with
  | VBytes _ => false
  | VList l => forallb is_json l
  | VDict d => forallb (fun '(_, x) => is_json x) d
  | _ => true
  end.

Class JsonCodec : Type := {
  json_dumps : value -> bytes;
  json_loads : bytes -> option value
}.

Class JsonCodecLawful (codec : JsonCodec) : Prop :=
  json_loads_dumps :
    forall j, is_json j = true -> json_loads (json_dumps j) = Some j.

(** The serializers, identified by their type tag: [Serializer(type=t)]
    succeeds for the registered tags, [dumps] and [loads] encode and decode
    a value. *)
Class Serializers : Type := {
  registered : string -> bool;
  dumps : string -> value -> exn + bytes;
  loads : string -> bytes -> exn + value
}.

(** The settings and constants of the installation. *)
Class Settings : Type := {
  (** [prefect.__version__] *)
  __version__ : string;
  (** [PREFECT_RESULTS_PERSIST_BY_DEFAULT] *)
  PREFECT_RESULTS_PERSIST_BY_DEFAULT : bool
}.

(** [get_default_persist_setting] *)
Definition get_default_persist_setting `{Settings} : bool :=
  PREFECT_RESULTS_PERSIST_BY_DEFAULT.

(** ** Serializer descriptors

    A serializer is identified by its type tag; the options of the
    serializer subclasses are not modelled. *)
Module Serializer.

Record t : Type := mk { type : string }.

  (** [Serializer(type=tag)]: dispatches on the tag, and fails for a tag
      that is not registered. *)
Definition new `{Serializers} (tag : string) : exn + t :=
    if registered tag then inr (mk tag) else inl ValidationError.

  (** [PickleSerializer()] *)
Definition PickleSerializer : t := mk "pickle".

Definition to_doc (s : t) : value := VDict [("type", VStr (type s))].

Definition validate `{Serializers} (v : value) : exn + t :=
    match v with
    | VDict d =>
        match dict_get "type" d with
        | Some (VStr tag) => new tag
        | _ => inl ValidationError
        end
    | _ => inl ValidationError
    end.

  (** [serializer.loads(blob)]; a blob that is [None] is not bytes. *)
Definition loads_opt `{Serializers} (s : t) (blob : option bytes) : exn + value :=
    match blob with
    | Some b => loads (type s) b
    | None => inl TypeError
    end.

End Serializer.

(** [resolve_serializer]: a serializer instance is returned as it is, a
    string names a serializer type. *)
Definition resolve_serializer `{Serializers} (serializer : Serializer.t + string)
  : exn + Serializer.t :=
  match serializer with
  | inl s => inr s
  | inr tag => Serializer.new tag
  end.

(** More settings and runtime services of the installation. *)
Class Runtime : Type := {
  (** [PREFECT_RESULTS_DEFAULT_SERIALIZER] *)
  PREFECT_RESULTS_DEFAULT_SERIALIZER : string;
  (** [_format_user_supplied_storage_key]: fills a key template from the
      attributes of the current run, which makes it a computation. *)
  _format_user_supplied_storage_key : string -> M World string
}.


(** Modelled from the spec: [Block.load] (the block registry, outside
    [results.py]): "resolve a stable opaque identifier (or a human
    name/string) to a live storage-backend instance"; a name that is not
    registered is an error. *)
Definition Block_load (name : string) : M World handle :=
  modify (log (EvReadBlockDocument name)) ;;;
  w <- gets id ;;
  match block_documents w !! name with
  | Some block => ret block
  | None => raise ValueError
  end.

(** The module-level [resolve_result_storage]: a block is returned as it
    is, a string is the name of a saved block, which must have a document
    id. *)
Module results.
Definition resolve_result_storage (result_storage : handle + string)
  : M World handle :=
  match result_storage with
  | inl storage_block => ret storage_block
  | inr name =>
      storage_block <- Block_load name ;;
      w <- gets id ;;
      match block_document_id w !! storage_block with
      | Some _ => ret storage_block
      | None => raise AssertionError
      end
  end.
End results.

(** Modelled from the spec: the result settings of a flow and of a task
    ([Flow], [Task], outside [results.py]): "an owning workflow or task
    definition's explicit (non-null) settings". *)
Module Flow.
Record t : Type := mk {
  result_storage : option (handle + string);
  result_serializer : option (Serializer.t + string);
  persist_result : option bool;
  cache_result_in_memory : option bool
}.
End Flow.

Module Task.
Record t : Type := mk {
  result_storage : option (handle + string);
  result_serializer : option (Serializer.t + string);
  persist_result : option bool;
  cache_result_in_memory : option bool;
  result_storage_key : option string
}.
End Task.

(** Validation of an [Optional[str]] field of a document; a [DateTime] and
    a [UUID] are kept as their text. *)
Definition optional_str_field (k : string) (d : pydict) : exn + option string :=
  match dict_get k d with
  | None | Some VNone => inr None
  | Some (VStr s) => inr (Some s)
  | Some _ => inl ValidationError
  end.

Definition optional_str_doc (o : option string) : value :=
  match o with
  | Some s => VStr s
  | None => VNone
  end.

(** ** [ResultRecordMetadata] *)
Module ResultRecordMetadata.

Record t : Type := mk {
    storage_key : option string;
    expiration : option string;
    serializer : Serializer.t;
    prefect_version : string;
    storage_block_id : option string
  }.

Section methods.
Context `{JsonCodec} `{Serializers} `{Settings}.

    (** The constructor, with the defaults of the fields left out
        ([serializer] is always given in [results.py]). *)
Definition new (serializer : Serializer.t) (expiration : option string)
        (storage_key : option string) (storage_block_id : option string) : t :=
      mk storage_key expiration serializer __version__ storage_block_id.

    (** [model_dump(mode="json", serialize_as_any=True)] *)
Definition to_doc (self : t) : value :=
      VDict [("storage_key", optional_str_doc (storage_key self));
             ("expiration", optional_str_doc (expiration self));
             ("serializer", Serializer.to_doc (serializer self));
             ("prefect_version", VStr (prefect_version self));
             ("storage_block_id", optional_str_doc (storage_block_id self))].

    (** [model_validate] on a parsed document; unknown keys are ignored. *)
Definition validate (v : value) : exn + t :=
      match v with
      | VDict d =>
          storage_key <~ optional_str_field "storage_key" d ;;
          expiration <~ optional_str_field "expiration" d ;;
          serializer <~ match dict_get "serializer" d with
                        | None => inr Serializer.PickleSerializer
                        | Some s => Serializer.validate s
                        end ;;
          prefect_version <~ match dict_get "prefect_version" d with
                             | None => inr __version__
                             | Some (VStr s) => inr s
                             | Some _ => inl ValidationError
                             end ;;
          storage_block_id <~ optional_str_field "storage_block_id" d ;;
          inr (mk storage_key expiration serializer prefect_version storage_block_id)
      | _ => inl ValidationError
      end.

Definition dump_bytes (self : t) : bytes := json_dumps (to_doc self).

    (** [model_validate_json(data)]; [data] is what a storage read
        returned. *)
Definition load_bytes (data : option bytes) : exn + t :=
      match data with
      | None => inl ValidationError
      | Some b =>
          match json_loads b with
          | Some v => validate v
          | None => inl ValidationError
          end
      end.

End methods.
End ResultRecordMetadata.

(** ** [ResultRecord] *)
Module ResultRecord.

Record t : Type := mk {
    metadata : ResultRecordMetadata.t;
    result : value
  }.

Definition expiration (self : t) : option string :=
    ResultRecordMetadata.expiration (metadata self).

Definition serializer (self : t) : Serializer.t :=
    ResultRecordMetadata.serializer (metadata self).

  (** [value["metadata"][field] = x]: only a dict supports the item
      assignment. *)
Definition set_in_metadata (field : string) (x : value) (d : pydict)
    : exn + pydict :=
    match dict_get "metadata" d with
    | Some (VDict m) => inr (dict_set "metadata" (VDict (dict_set field x m)) d)
    | _ => inl TypeError
    end.

  (** [if field in value: value["metadata"][field] = value.pop(field)] *)
Definition move_to_metadata (field : string) (d : pydict) : exn + pydict :=
    match dict_get field d with
    | Some x => set_in_metadata field x (dict_del field d)
    | None => inr d
    end.

  (** The [mode="before"] validator of the model. *)
Definition coerce_old_format (v : value) : exn + value :=
    match v with
    | VDict d =>
        let d1 := match dict_get "data" d with
                  | Some x => dict_set "result" x (dict_del "data" d)
                  | None => d
                  end in
        let d2 := if dict_has "metadata" d1 then d1
                  else dict_set "metadata" (VDict []) d1 in
        d3 <~ move_to_metadata "expiration" d2 ;;
        d4 <~ move_to_metadata "serializer" d3 ;;
        d5 <~ move_to_metadata "prefect_version" d4 ;;
        inr (VDict d5)
    | _ => inr v
    end.

Section methods.
Context `{JsonCodec} `{Serializers} `{Settings}.

Definition serialize_result (self : t) : exn + bytes :=
      match dumps (Serializer.type (serializer self)) (result self) with
      | inr data => inr data
      | inl _ => inl SerializationError
      end.

Definition serialize_metadata (self : t) : bytes :=
      ResultRecordMetadata.dump_bytes (metadata self).

    (** The document of a record whose [result] was replaced by its
        serialized payload. *)
Definition to_doc (metadata : ResultRecordMetadata.t) (payload : bytes) : value :=
      VDict [("metadata", ResultRecordMetadata.to_doc metadata);
             ("result", VStr payload)].

Definition serialize (self : t) : exn + bytes :=
      data <~ serialize_result self ;;
      inr (json_dumps (to_doc (metadata self) data)).

    (** Validation of the fields, after the before-validator ran. *)
Definition validate_fields (v : value) : exn + t :=
      match v with
      | VDict d =>
          match dict_get "metadata" d, dict_get "result" d with
          | Some m, Some r =>
              metadata <~ ResultRecordMetadata.validate m ;;
              inr (mk metadata r)
          | _, _ => inl ValidationError
          end
      | _ => inl ValidationError
      end.

    (** [model_validate] *)
Definition model_validate (v : value) : exn + t :=
      v' <~ coerce_old_format v ;;
      validate_fields v'.

    (** [model_validate_json] *)
Definition model_validate_json (data : option bytes) : exn + t :=
      match data with
      | None => inl ValidationError
      | Some b =>
          match json_loads b with
          | Some v => model_validate v
          | None => inl ValidationError
          end
      end.

Definition deserialize (data : option bytes) : exn + t :=
      instance <~ model_validate_json data ;;
      match result instance with
      | VBytes b =>
          r <~ loads (Serializer.type (serializer instance)) b ;;
          inr (mk (metadata instance) r)
      | VStr s =>
          r <~ loads (Serializer.type (serializer instance)) s ;;
          inr (mk (metadata instance) r)
      | _ => inr instance
      end.

Definition deserialize_from_result_and_metadata
        (result : option bytes) (metadata : option bytes) : exn + t :=
      result_record_metadata <~ ResultRecordMetadata.load_bytes metadata ;;
      r <~ Serializer.loads_opt
             (ResultRecordMetadata.serializer result_record_metadata) result ;;
      inr (mk result_record_metadata r).

End methods.
End ResultRecord.

(** ** [PersistedResult]: the model and its constructor *)
Module PersistedResultModel.

Record t : Type := mk {
    type : string;
    serializer_type : string;
    storage_key : string;
    storage_block_id : option string;
    expiration : option string;
    serialize_to_none : bool;
    (** private attributes; [NotSet] is [None] *)
    _cache : option value;
    _persisted : bool;
    _should_cache_object : bool;
    _storage_block : option handle;
    _serializer : option Serializer.t
  }.

Definition set_cache (c : option value) (r : t) : t :=
    mk (type r) (serializer_type r) (storage_key r) (storage_block_id r)
       (expiration r) (serialize_to_none r) c (_persisted r)
       (_should_cache_object r) (_storage_block r) (_serializer r).

Definition set_persisted (b : bool) (r : t) : t :=
    mk (type r) (serializer_type r) (storage_key r) (storage_block_id r)
       (expiration r) (serialize_to_none r) (_cache r) b
       (_should_cache_object r) (_storage_block r) (_serializer r).

Definition set_storage_block (h : option handle) (r : t) : t :=
    mk (type r) (serializer_type r) (storage_key r) (storage_block_id r)
       (expiration r) (serialize_to_none r) (_cache r) (_persisted r)
       (_should_cache_object r) h (_serializer r).

  (** The default serialization of the model: every field, in order. *)
Definition handler (self : t) : value :=
    VDict [("type", VStr (type self));
           ("serializer_type", VStr (serializer_type self));
           ("storage_key", VStr (storage_key self));
           ("storage_block_id", optional_str_doc (storage_block_id self));
           ("expiration", optional_str_doc (expiration self));
           ("serialize_to_none", VBool (serialize_to_none self))].

Definition serialize_model (self : t) : value :=
    if serialize_to_none self then VNone else handler self.

Definition has_cached_object (self : t) : bool :=
    bool_decide (is_Some (_cache self)).

  (** [_infer_path]: the path the block resolves the key to, for the
      blocks that can tell. *)
Definition _infer_path (storage_block : handle) (key : string)
    : M World (option string) :=
    WritableFileSystem._resolve_path storage_block key.

Definition create (obj : value) (storage_block : handle)
      (storage_key_fn : M World string) (serializer : Serializer.t)
      (storage_block_id : option string) (cache_object : bool)
      (expiration : option string) (serialize_to_none : bool) : M World t :=
    key <- storage_key_fn ;;
    uri <- _infer_path storage_block key ;;
    let key := match storage_block_id, uri with
               | None, Some u => u
               | _, _ => key
               end in
    ret (mk "reference" (Serializer.type serializer) key storage_block_id
            expiration serialize_to_none
            (Some obj) false cache_object (Some storage_block) (Some serializer)).

  (** [__eq__] between two references. *)
Definition eq (self other : t) : bool :=
    bool_decide (type self = type other)
    && bool_decide (serializer_type self = serializer_type other)
    && bool_decide (storage_key self = storage_key other)
    && bool_decide (storage_block_id self = storage_block_id other)
    && bool_decide (expiration self = expiration other).

End PersistedResultModel.

(** Modelled from the spec: the isolation levels ([IsolationLevel], in
    [prefect.transactions], outside [results.py]): "an external two-valued
    enumeration {READ_COMMITTED, SERIALIZABLE}"; [OtherLevel] stands for any
    other argument a caller passes. *)
Inductive IsolationLevel : Type :=
  | READ_COMMITTED
  | SERIALIZABLE
  | OtherLevel (name : string).

(** ** [ResultStore] *)
Module ResultStore.

Record t : Type := mk {
    result_storage : option handle;
    metadata_storage : option handle;
    lock_manager : option handle;
    persist_result : bool;
    cache_result_in_memory : bool;
    serializer : Serializer.t;
    storage_key_fn : M World string
  }.

Definition set_result_storage (h : option handle) (s : t) : t :=
    mk h (metadata_storage s) (lock_manager s) (persist_result s)
       (cache_result_in_memory s) (serializer s) (storage_key_fn s).

  (** A method body runs on the store and the world. *)
Abbreviation Method A := (M (t * World) A) (only parsing).

Definition self : Method t := gets fst.

  (** [if self.result_storage is None:
         self.result_storage = await get_default_result_storage()] *)
Definition resolve_result_storage : Method handle :=
    s <- self ;;
    match result_storage s with
    | Some h => ret h
    | None =>
        h <- lift get_default_result_storage ;;
        modify (fun '(s, w) => (set_result_storage (Some h) s, w)) ;;;
        ret h
    end.

Definition result_storage_block_id : Method (option string) :=
    s <- self ;;
    match result_storage s with
    | None => ret None
    | Some h => lift (gets (fun w => block_document_id w !! h))
    end.

Definition generate_default_holder : M World string :=
    w <- gets id ;;
    ret (hostname w ++ ":" ++ pid w ++ ":" ++ thread_id w ++ ":" ++ thread_name w).

  (** [if self.lock_manager is None: raise ConfigurationError(...)] *)
Definition require_lock_manager : Method handle :=
    s <- self ;;
    match lock_manager s with
    | Some lm => ret lm
    | None => raise ConfigurationError
    end.

Definition _exists (key : string) : Method bool :=
    s <- self ;;
    match metadata_storage s with
    | Some ms =>
        try_except
          (metadata_content <- lift (WritableFileSystem.read_path ms key) ;;
           ret (bool_decide (is_Some metadata_content)))
          (fun _ => ret false)
    | None =>
        try_except
          (rs <- deref (result_storage s) ;;
           content <- lift (WritableFileSystem.read_path rs key) ;;
           ret (bool_decide (is_Some content)))
          (fun _ => ret false)
    end.

Definition exists_ (key : string) : Method bool := _exists key.

Definition acquire_lock (key : string) (holder : option string)
      (timeout : option Z) : Method bool :=
    holder <- lift (or_else_opt holder generate_default_holder) ;;
    lm <- require_lock_manager ;;
    lift (LockManager.acquire_lock lm key holder timeout).

Definition release_lock (key : string) (holder : option string) : Method unit :=
    holder <- lift (or_else_opt holder generate_default_holder) ;;
    lm <- require_lock_manager ;;
    lift (LockManager.release_lock lm key holder).

Definition is_locked (key : string) : Method bool :=
    lm <- require_lock_manager ;;
    lift (LockManager.is_locked lm key).

Definition is_lock_holder (key : string) (holder : option string) : Method bool :=
    holder <- lift (or_else_opt holder generate_default_holder) ;;
    lm <- require_lock_manager ;;
    lift (LockManager.is_lock_holder lm key holder).

Definition wait_for_lock (key : string) (timeout : option Z) : Method bool :=
    lm <- require_lock_manager ;;
    lift (LockManager.wait_for_lock lm key timeout).

Definition supports_isolation_level (s : t) (level : IsolationLevel) : exn + bool :=
    match level with
    | READ_COMMITTED => inr true
    | SERIALIZABLE => inr (bool_decide (is_Some (lock_manager s)))
    | OtherLevel _ => inl ValueError
    end.

Section methods.
Context `{JsonCodec} `{Serializers} `{Settings}.

Definition _read (key : string) (holder : string) : Method ResultRecord.t :=
      s <- self ;;
      match lock_manager s with
      | Some _ =>
          is_holder <- is_lock_holder key (Some holder) ;;
          if is_holder then ret tt
          else (wait_for_lock key None ;;; ret tt)
      | None => ret tt
      end ;;;
      rs <- resolve_result_storage ;;
      match metadata_storage s with
      | Some ms =>
          metadata_content <- lift (WritableFileSystem.read_path ms key) ;;
          metadata <- of_sum (ResultRecordMetadata.load_bytes metadata_content) ;;
          match ResultRecordMetadata.storage_key metadata with
          | None => raise AssertionError
          | Some storage_key =>
              result_content <- lift (WritableFileSystem.read_path rs storage_key) ;;
              of_sum (ResultRecord.deserialize_from_result_and_metadata
                        result_content metadata_content)
          end
      | None =>
          content <- lift (WritableFileSystem.read_path rs key) ;;
          of_sum (ResultRecord.deserialize content)
      end.

Definition read (key : string) (holder : option string) : Method ResultRecord.t :=
      holder <- lift (or_else_opt holder generate_default_holder) ;;
      _read key holder.

Definition create_result_record (key : string) (obj : value)
        (expiration : option string) : Method ResultRecord.t :=
      s <- self ;;
      key <- lift (or_else key (storage_key_fn s)) ;;
      block_id <- result_storage_block_id ;;
      ret (ResultRecord.mk
             (ResultRecordMetadata.new (serializer s) expiration (Some key) block_id)
             obj).

Definition _persist_result_record (result_record : ResultRecord.t)
        (holder : string) : Method unit :=
      match ResultRecordMetadata.storage_key (ResultRecord.metadata result_record) with
      | None => raise AssertionError
      | Some key =>
          s <- self ;;
          match lock_manager s with
          | Some _ =>
              locked <- is_locked key ;;
              if locked then
                is_holder <- is_lock_holder key (Some holder) ;;
                if is_holder then ret tt else raise RuntimeError
              else ret tt
          | None => ret tt
          end ;;;
          rs <- resolve_result_storage ;;
          match metadata_storage s with
          | Some ms =>
              payload <- of_sum (ResultRecord.serialize_result result_record) ;;
              lift (WritableFileSystem.write_path rs key payload) ;;;
              lift (WritableFileSystem.write_path ms key
                      (ResultRecord.serialize_metadata result_record))
          | None =>
              content <- of_sum (ResultRecord.serialize result_record) ;;
              lift (WritableFileSystem.write_path rs key content)
          end
      end.

Definition persist_result_record (result_record : ResultRecord.t)
        (holder : option string) : Method unit :=
      holder <- lift (or_else_opt holder generate_default_holder) ;;
      _persist_result_record result_record holder.

Definition write (key : string) (obj : value) (expiration : option string)
        (holder : option string) : Method unit :=
      holder <- lift (or_else_opt holder generate_default_holder) ;;
      result_record <- create_result_record key obj expiration ;;
      persist_result_record result_record (Some holder).

Definition create_result (obj : value) (key : option string)
        (expiration : option string) : Method PersistedResultModel.t :=
      s <- self ;;
      let should_cache_object :=
        cache_result_in_memory s || is_None obj in
      let key_fn :=
        match key with
        | Some k => if String.eqb k "" then storage_key_fn s else ret k
        | None => storage_key_fn s
        end in
      rs <- resolve_result_storage ;;
      block_id <- result_storage_block_id ;;
      lift (PersistedResultModel.create obj rs key_fn (serializer s) block_id
              should_cache_object expiration (negb (persist_result s))).

Definition store_parameters (identifier : string) (parameters : value)
      : Method unit :=
      s <- self ;;
      let record :=
        ResultRecord.mk
          (ResultRecordMetadata.new (serializer s) None (Some identifier) None)
          parameters in
      rs <- deref (result_storage s) ;;
      content <- of_sum (ResultRecord.serialize record) ;;
      lift (WritableFileSystem.write_path rs ("parameters/" ++ identifier) content).

Definition read_parameters (identifier : string) : Method value :=
      s <- self ;;
      rs <- deref (result_storage s) ;;
      content <- lift (WritableFileSystem.read_path rs ("parameters/" ++ identifier)) ;;
      record <- of_sum (ResultRecord.deserialize content) ;;
      ret (ResultRecord.result record).

    (** [ResultStore(result_storage=..., serializer=...)], the other fields
        at their defaults. *)
Definition new (result_storage : option handle) (serializer : Serializer.t) : t :=
      mk result_storage None None get_default_persist_setting true serializer
         DEFAULT_STORAGE_KEY_FN.

Context `{Runtime}.


(** [self.model_copy(update=update)], for the keys [update] can hold:
    a key that is absent keeps the field of the store. *)
Definition model_copy (s : t) (storage : option handle)
    (serializer' : option Serializer.t) (persist cache : option bool)
    (key_fn : option (M World string)) : t :=
  mk (match storage with Some h => Some h | None => result_storage s end)
     (metadata_storage s) (lock_manager s)
     (default (persist_result s) persist)
     (default (cache_result_in_memory s) cache)
     (default (serializer s) serializer')
     (default (storage_key_fn s) key_fn).

Definition update_for_flow (flow : Flow.t) : Method t :=
  s <- self ;;
  storage <- match Flow.result_storage flow with
             | Some rs =>
                 h <- lift (results.resolve_result_storage rs) ;; ret (Some h)
             | None => ret None
             end ;;
  serializer <- match Flow.result_serializer flow with
                | Some x => x' <- of_sum (resolve_serializer x) ;; ret (Some x')
                | None => ret None
                end ;;
  storage <- match result_storage s, storage with
             | None, None => h <- lift get_default_result_storage ;; ret (Some h)
             | _, _ => ret storage
             end ;;
  ret (model_copy s storage serializer (Flow.persist_result flow)
         (Flow.cache_result_in_memory flow) None).

Definition update_for_task (task : Task.t) : Method t :=
  s <- self ;;
  storage <- match Task.result_storage task with
             | Some rs =>
                 h <- lift (results.resolve_result_storage rs) ;; ret (Some h)
             | None => ret None
             end ;;
  serializer <- match Task.result_serializer task with
                | Some x => x' <- of_sum (resolve_serializer x) ;; ret (Some x')
                | None => ret None
                end ;;
  let key_fn := match Task.result_storage_key task with
                | Some template => Some (_format_user_supplied_storage_key template)
                | None => None
                end in
  storage <- match result_storage s, storage with
             | None, None => h <- lift get_default_result_storage ;; ret (Some h)
             | _, _ => ret storage
             end ;;
  ret (model_copy s storage serializer (Task.persist_result task)
         (Task.cache_result_in_memory task) key_fn).

End methods.
End ResultStore.

(** ** [PersistedResult]: the methods that go through a store *)
Module PersistedResult.
Include PersistedResultModel.

Abbreviation Method A := (M (t * World) A) (only parsing).

Definition self : Method t := gets fst.

Section methods.
Context `{JsonCodec} `{Serializers} `{Settings}.

(** [_get_storage_block]: the cached handle, else the block of the
    recorded block document, else the default storage; the handle found
    is cached on the reference. *)
Definition _get_storage_block : Method handle :=
  r <- self ;;
  match _storage_block r with
  | Some h => ret h
  | None =>
      h <- match storage_block_id r with
           | Some block_id =>
               lift (modify (log (EvReadBlockDocument block_id)) ;;;
                     w <- gets id ;;
                     match block_documents w !! block_id with
                     | Some h => ret h
                     | None => raise ObjectNotFound
                     end)
           | None => lift get_default_result_storage
           end ;;
      modify (fun '(r, w) => (set_storage_block (Some h) r, w)) ;;;
      ret h
  end.

(** [write(obj)]; [obj = None] is the [NotSet] default. *)
Definition write (obj : option value) : Method unit :=
  r <- self ;;
  if _persisted r || serialize_to_none r then ret tt
  else
    obj <- match obj, _cache r with
           | Some o, _ => ret o
           | None, Some o => ret o
           | None, None => raise ValueError
           end ;;
    storage_block <- _get_storage_block ;;
    serializer <- match _serializer r with
                  | Some s => ret s
                  | None => of_sum (Serializer.new (serializer_type r))
                  end ;;
    let result_store := ResultStore.new (Some storage_block) serializer in
    lift (with_object result_store
            (ResultStore.write (storage_key r) obj (expiration r) None)) ;;;
    modify (fun '(r, w) => (set_persisted true r, w)) ;;;
    r' <- self ;;
    if _should_cache_object r' then ret tt
    else modify (fun '(r, w) => (set_cache None r, w)).

Context `{Runtime}.




End methods.
End PersistedResult.


(** * Properties *)

(** ** Vocabulary of the statements *)

(** The holder a call acts for: the one given, or the default built from
    host, process and thread when none (or an empty one) is given. *)
Definition effective_holder (holder : option string) (w : World) : string :=
  match holder with
  | Some h =>
      if String.eqb h "" then
        hostname w ++ ":" ++ pid w ++ ":" ++ thread_id w ++ ":" ++ thread_name w
      else h
  | None =>
      hostname w ++ ":" ++ pid w ++ ":" ++ thread_id w ++ ":" ++ thread_name w
  end.

(** Calls that take or wait for a lock, in a trace. *)
Fixpoint lock_requests (t : list event) : nat :=
  match t with
  | [] => 0
  | EvAcquire _ _ _ :: t' => S (lock_requests t')
  | EvWait _ _ :: t' => S (lock_requests t')
  | _ :: t' => lock_requests t'
  end.

(** Number of calls in a trace that ask a lock manager to take, give up
    or await a lock: [acquire_lock], [release_lock] and [wait]. *)
Fixpoint lock_calls (t : list event) : nat :=
  match t with
  | [] => 0
  | EvAcquire _ _ _ :: t' => S (lock_calls t')
  | EvRelease _ _ _ :: t' => S (lock_calls t')
  | EvWait _ _ :: t' => S (lock_calls t')
  | _ :: t' => lock_calls t'
  end.

(** The [read_path] calls of a trace, most recent first. *)
Fixpoint storage_reads (t : list event) : list (handle * string) :=
  match t with
  | [] => []
  | EvRead h p :: t' => (h, p) :: storage_reads t'
  | _ :: t' => storage_reads t'
  end.

(** A store method returned or raised, without taking or waiting for a
    lock and with the lock tables as they were. *)
Definition leaves_locks_alone {A} (w : World)
    (r : Res (ResultStore.t * World) A) : Prop :=
  match r with
  | Ok _ (_, w') | Raise _ (_, w') =>
      locks w' = locks w /\ lock_requests (trace w') = lock_requests (trace w)
  | Hang => False
  end.

(** The backend the store reads and writes payloads on: the configured
    one, or the default storage resolved at first use. *)
Definition resolved_storage (s : ResultStore.t) (w : World) : handle :=
  match ResultStore.result_storage s with
  | Some h => h
  | None => default_storage w
  end.

(** The key is free, or held by the holder the call acts for. *)
Definition uncontended (s : ResultStore.t) (w : World) (key : string)
    (holder : option string) : Prop :=
  forall lm, ResultStore.lock_manager s = Some lm ->
    locks w !! (lm, key) = None
    \/ locks w !! (lm, key) = Some (effective_holder holder w).

(** What a backend read of [path] answers with content. *)
Definition backend_answers (w : World) (h : handle) (path : string) : bool :=
  match read_anomaly w !! (h, path) with
  | Some _ => false
  | None => bool_decide (is_Some (fs w !! (h, path)))
  end.

Arguments effective_holder : simpl never.
Arguments ResultRecordMetadata.load_bytes : simpl never.
Arguments ResultRecordMetadata.to_doc : simpl never.
Arguments ResultRecordMetadata.validate : simpl never.
Arguments ResultRecordMetadata.dump_bytes : simpl never.
Arguments ResultRecord.serialize : simpl never.
Arguments ResultRecord.serialize_result : simpl never.
Arguments ResultRecord.serialize_metadata : simpl never.
Arguments ResultRecord.deserialize : simpl never.
Arguments ResultRecord.deserialize_from_result_and_metadata : simpl never.

(** ** Holders *)

Lemma or_else_holder (h : string) (w : World) :
  or_else h ResultStore.generate_default_holder w
  = Ok (effective_holder (Some h) w) w.
Proof.
  unfold or_else, effective_holder. destruct (String.eqb h ""); reflexivity.
Qed.

Lemma holder_or_default (holder : option string) (w : World) :
  or_else_opt holder ResultStore.generate_default_holder w
  = Ok (effective_holder holder w) w.
Proof. destruct holder as [h|]; [apply or_else_holder|reflexivity]. Qed.

Lemma effective_holder_idem (holder : option string) (w : World) :
  effective_holder (Some (effective_holder holder w)) w
  = effective_holder holder w.
Proof.
  unfold effective_holder at 1.
  destruct (String.eqb (effective_holder holder w) "") eqn:E; [|reflexivity].
  unfold effective_holder in *. destruct holder as [h|]; [|reflexivity].
  destruct (String.eqb h "") eqn:E'; [reflexivity|congruence].
Qed.

Lemma effective_holder_log (holder : option string) (e : event) (w : World) :
  effective_holder holder (log e w) = effective_holder holder w.
Proof. reflexivity. Qed.

(** The key a reference is created with: the minted key, or the path the
    storage block resolves it to when the block has no document id. *)
Definition reference_key (w : World) (block : handle) (minted : string) : string :=
  match block_document_id w !! block, basepath w !! block with
  | None, Some base => base ++ "/" ++ minted
  | _, _ => minted
  end.

Section Properties.
Context `{codec : JsonCodec} `{!JsonCodecLawful codec} `{Serializers} `{Settings}.

Ltac unfold_store :=
  unfold ResultStore._persist_result_record, ResultStore.persist_result_record,
    ResultStore.write, ResultStore.create_result_record, ResultStore._read,
    ResultStore.read, ResultStore._exists, ResultStore.exists_,
    ResultStore.is_locked, ResultStore.is_lock_holder,
    ResultStore.wait_for_lock, ResultStore.require_lock_manager,
    ResultStore.resolve_result_storage, ResultStore.result_storage_block_id,
    ResultStore.store_parameters, ResultStore.read_parameters,
    ResultStore.create_result, ResultStore.self in *.

Ltac unfold_monad :=
  unfold bind, ret, raise, gets, modify, lift, of_sum, deref, try_except,
    with_object, assert_ in *.

Ltac exec := unfold_store; unfold_monad; cbn.

(** Case analysis on the next test the evaluation is stuck on. *)
Ltac split_next :=
  match goal with
  | |- context [match ?x with _ => _ end] =>
      lazymatch x with
      | context [match _ with _ => _ end] => fail
      | _ => destruct x eqn:?
      end
  end.

(** C3. With a lock manager configured, persisting a record whose key is
    locked by a holder other than the caller raises [RuntimeError] after
    two lock queries: nothing is written, nothing is waited for. The error
    is neither the serialization nor the configuration error. Whatever the
    arguments, persisting returns or raises without taking or waiting for
    a lock, and leaves the lock tables as they were. *)
Theorem persist_locked_by_other (s : ResultStore.t) (w : World)
    (lm : handle) (key other : string) (holder : string)
    (record : ResultRecord.t) :
  ResultStore.lock_manager s = Some lm ->
  ResultRecordMetadata.storage_key (ResultRecord.metadata record) = Some key ->
  locks w !! (lm, key) = Some other ->
  other <> effective_holder (Some holder) w ->
  ResultStore._persist_result_record record holder (s, w)
  = Raise RuntimeError
      (s, log (EvIsLockHolder lm key (effective_holder (Some holder) w))
            (log (EvIsLocked lm key) w))
  /\ RuntimeError <> SerializationError
  /\ RuntimeError <> ConfigurationError
  /\ forall s' w' record' holder',
       leaves_locks_alone w' (ResultStore._persist_result_record record' holder' (s', w')).
Proof.
  intros Hlm Hkey Hlock Hne. repeat split; try discriminate.
  - destruct s as [rs ms lmo pr cache ser kfn]. cbn in Hlm. subst lmo.
    unfold ResultStore._persist_result_record. rewrite Hkey.
    exec. rewrite Hlock. cbn.
    rewrite or_else_holder, effective_holder_log. cbn.
    rewrite Hlock, bool_decide_eq_false_2 by congruence. reflexivity.
  - clear. intros s w record holder.
    destruct s as [rs ms lmo pr cache ser kfn].
    unfold leaves_locks_alone, ResultStore._persist_result_record.
    destruct (ResultRecordMetadata.storage_key _); [|split; reflexivity].
    exec.
    repeat (first [rewrite or_else_holder | split_next]; cbn);
      try (split; reflexivity).
Qed.
(** C4. [supports_isolation_level] answers true for READ_COMMITTED on
    every store, answers true for SERIALIZABLE exactly when a lock manager
    is configured, and raises [ValueError] for any other level. *)
Theorem supports_isolation_level_spec (s : ResultStore.t) :
  ResultStore.supports_isolation_level s READ_COMMITTED = inr true
  /\ (exists b, ResultStore.supports_isolation_level s SERIALIZABLE = inr b
                /\ (b = true <-> ResultStore.lock_manager s <> None))
  /\ (forall name, ResultStore.supports_isolation_level s (OtherLevel name)
                   = inl ValueError).
Proof.
  split; [reflexivity|]. split; [|reflexivity].
  unfold ResultStore.supports_isolation_level.
  destruct (ResultStore.lock_manager s) as [lm|]; eexists; split; try reflexivity.
  - split; [discriminate|reflexivity].
  - split; [discriminate|congruence].
Qed.

(** C5. A reference whose [serialize_to_none] flag is set serializes to
    the null value, whatever its other fields hold, and its [write] returns
    at once, leaving the reference and the world (storage content and
    trace of storage calls) as they were. *)
Theorem serialize_to_none_shape (r : PersistedResult.t) :
  PersistedResult.serialize_to_none r = true ->
  PersistedResult.serialize_model r = VNone
  /\ PersistedResult.serialize_model r <> VDict []
  /\ forall obj w, PersistedResult.write obj (r, w) = Ok tt (r, w).
Proof.
  intros Hnone. unfold PersistedResult.serialize_model. rewrite Hnone.
  repeat split; [discriminate|].
  intros obj w. unfold PersistedResult.write, bind, PersistedResult.self, gets.
  cbn. rewrite Hnone, orb_true_r. reflexivity.
Qed.

(** C7 (as amended). [_exists] always returns a boolean and never raises:
    an exception of the storage read (missing key, I/O error) and an
    unconfigured storage give false, a read that answers with content
    gives true. With a metadata storage configured the one read goes to
    the metadata storage, otherwise to the result storage; neither the
    store, the storage content nor the lock tables change. *)
Theorem exists_never_raises (s : ResultStore.t) (w : World) (key : string) :
  match ResultStore.metadata_storage s, ResultStore.result_storage s with
  | Some ms, _ =>
      ResultStore._exists key (s, w)
      = Ok (backend_answers w ms key) (s, log (EvRead ms key) w)
  | None, Some rs =>
      ResultStore._exists key (s, w)
      = Ok (backend_answers w rs key) (s, log (EvRead rs key) w)
  | None, None =>
      ResultStore._exists key (s, w) = Ok false (s, w)
  end.
Proof.
  destruct s as [rs ms lmo pr cache ser kfn]. cbn [ResultStore.metadata_storage ResultStore.result_storage].
  unfold backend_answers.
  destruct ms as [ms|]; [|destruct rs as [rs|]]; exec; try reflexivity.
  - destruct (read_anomaly w !! (ms, key)) as [[|e]|]; cbn; try reflexivity.
    destruct (fs w !! (ms, key)); reflexivity.
  - destruct (read_anomaly w !! (rs, key)) as [[|e]|]; cbn; try reflexivity.
    destruct (fs w !! (rs, key)); reflexivity.
Qed.

(** Reading through separate metadata and result storages. *)
Lemma read_split_run (s : ResultStore.t) (w : World)
    (key : string) (holder : option string) (ms : handle)
    (metadata_content : bytes) (metadata : ResultRecordMetadata.t) :
  ResultStore.metadata_storage s = Some ms ->
  uncontended s w key holder ->
  read_anomaly w !! (ms, key) = None ->
  fs w !! (ms, key) = Some metadata_content ->
  ResultRecordMetadata.load_bytes (Some metadata_content) = inr metadata ->
  (forall storage_key result_content v,
     ResultRecordMetadata.storage_key metadata = Some storage_key ->
     read_anomaly w !! (resolved_storage s w, storage_key) = None ->
     fs w !! (resolved_storage s w, storage_key) = Some result_content ->
     loads (Serializer.type (ResultRecordMetadata.serializer metadata))
       result_content = inr v ->
     exists s' w',
       ResultStore.read key holder (s, w)
       = Ok (ResultRecord.mk metadata v) (s', w')
       /\ storage_reads (trace w')
          = (resolved_storage s w, storage_key) :: (ms, key)
            :: storage_reads (trace w))
  /\ (ResultRecordMetadata.storage_key metadata = None ->
      exists s' w',
        ResultStore.read key holder (s, w) = Raise AssertionError (s', w')
        /\ storage_reads (trace w') = (ms, key) :: storage_reads (trace w)).
Proof.
  intros Hms Hfree Ha Hf Hload.
  destruct s as [rs mso lmo pr cache ser kfn]. cbn in Hms. subst mso.
  unfold uncontended, resolved_storage in *.
  cbn [ResultStore.lock_manager ResultStore.result_storage] in *.
  split.
  - intros skey pbytes v Hkey Ha' Hf' Hloads.
    unfold ResultStore.read.
    unfold bind at 1, lift at 1. rewrite holder_or_default.
    destruct lmo as [lm|]; [destruct (Hfree lm eq_refl) as [Hl|Hl]|];
      destruct rs as [rs|].
    all: exec; rewrite ?or_else_holder, ?effective_holder_idem.
    all: unfold ResultRecord.deserialize_from_result_and_metadata.
    all: repeat (progress (cbn;
           rewrite ?Hl, ?Ha, ?Hf, ?Hload, ?Hkey, ?Ha', ?Hf', ?Hloads;
           rewrite ?bool_decide_eq_true_2 by reflexivity;
           rewrite ?bool_decide_eq_false_2 by discriminate)).
    all: do 2 eexists; split; [reflexivity|reflexivity].
  - intros Hkey.
    unfold ResultStore.read.
    unfold bind at 1, lift at 1. rewrite holder_or_default.
    destruct lmo as [lm|]; [destruct (Hfree lm eq_refl) as [Hl|Hl]|];
      destruct rs as [rs|].
    all: exec; rewrite ?or_else_holder, ?effective_holder_idem.
    all: repeat (progress (cbn;
           rewrite ?Hl, ?Ha, ?Hf, ?Hload, ?Hkey;
           rewrite ?bool_decide_eq_true_2 by reflexivity;
           rewrite ?bool_decide_eq_false_2 by discriminate)).
    all: do 2 eexists; split; [reflexivity|reflexivity].
Qed.



(** ** Round trips of the record layer *)

(** The serializer encodes [v] and decodes it back, and its type tag is
    registered. *)
Definition supported (ser : Serializer.t) (v : value) : Prop :=
  registered (Serializer.type ser) = true
  /\ exists payload,
       dumps (Serializer.type ser) v = inr payload
       /\ loads (Serializer.type ser) payload = inr v.

Lemma metadata_doc_is_json (md : ResultRecordMetadata.t) :
  is_json (ResultRecordMetadata.to_doc md) = true.
Proof.
  destruct md as [[k|] [e|] [t] pv [b|]]; reflexivity.
Qed.

Lemma record_doc_is_json (md : ResultRecordMetadata.t) (payload : bytes) :
  is_json (ResultRecord.to_doc md payload) = true.
Proof.
  destruct md as [[k|] [e|] [t] pv [b|]]; reflexivity.
Qed.

Lemma metadata_validate_doc (md : ResultRecordMetadata.t) :
  registered (Serializer.type (ResultRecordMetadata.serializer md)) = true ->
  ResultRecordMetadata.validate (ResultRecordMetadata.to_doc md) = inr md.
Proof.
  intros Hreg. destruct md as [k e [t] pv b]. cbn in Hreg.
  unfold ResultRecordMetadata.validate, ResultRecordMetadata.to_doc,
    optional_str_field, Serializer.validate, Serializer.new.
  cbn. destruct k, e, b; cbn; rewrite Hreg; reflexivity.
Qed.

Lemma metadata_roundtrip (md : ResultRecordMetadata.t) :
  registered (Serializer.type (ResultRecordMetadata.serializer md)) = true ->
  ResultRecordMetadata.load_bytes (Some (ResultRecordMetadata.dump_bytes md))
  = inr md.
Proof.
  intros Hreg. unfold ResultRecordMetadata.load_bytes, ResultRecordMetadata.dump_bytes.
  rewrite json_loads_dumps by apply metadata_doc_is_json.
  apply metadata_validate_doc, Hreg.
Qed.

Lemma record_roundtrip (r : ResultRecord.t) :
  supported (ResultRecord.serializer r) (ResultRecord.result r) ->
  exists content,
    ResultRecord.serialize r = inr content
    /\ ResultRecord.deserialize (Some content) = inr r.
Proof.
  intros [Hreg (payload & Hd & Hl)]. destruct r as [md v].
  unfold ResultRecord.serializer in *. cbn in *.
  exists (json_dumps (ResultRecord.to_doc md payload)). split.
  - unfold ResultRecord.serialize, ResultRecord.serialize_result,
      ResultRecord.serializer. cbn. rewrite Hd. reflexivity.
  - unfold ResultRecord.deserialize, ResultRecord.model_validate_json.
    rewrite json_loads_dumps by apply record_doc_is_json.
    unfold ResultRecord.model_validate, ResultRecord.to_doc. cbn.
    rewrite metadata_validate_doc by exact Hreg. cbn.
    unfold ResultRecord.serializer. cbn. rewrite Hl. reflexivity.
Qed.

(** ** Writing and reading through the store *)

(** Two worlds that differ in storage content and trace only. *)
Definition same_environment (w w1 : World) : Prop :=
  locks w1 = locks w
  /\ read_anomaly w1 = read_anomaly w
  /\ write_fault w1 = write_fault w
  /\ default_storage w1 = default_storage w
  /\ forall h, effective_holder h w1 = effective_holder h w.

(** The record [write] builds for a key that is not empty. *)
Definition written_record (s : ResultStore.t) (w : World) (key : string)
    (v : value) (expiration : option string) : ResultRecord.t :=
  ResultRecord.mk
    (ResultRecordMetadata.new (ResultStore.serializer s) expiration (Some key)
       (match ResultStore.result_storage s with
        | Some h => block_document_id w !! h
        | None => None
        end))
    v.

Lemma or_else_nonempty {S} (x : string) (m : M S string) (st : S) :
  String.eqb x "" = false -> or_else x m st = Ok x st.
Proof. intros E. unfold or_else. rewrite E. reflexivity. Qed.

Lemma or_else_empty {S} (m : M S string) (st : S) :
  or_else "" m st = m st.
Proof. reflexivity. Qed.

Lemma write_effect (s : ResultStore.t) (w : World) (key : string) (v : value)
    (expiration holder : option string) (content : bytes) :
  key <> "" ->
  uncontended s w key holder ->
  write_fault w !! resolved_storage s w = None ->
  (forall ms, ResultStore.metadata_storage s = Some ms -> write_fault w !! ms = None) ->
  (match ResultStore.metadata_storage s with
   | Some _ => ResultRecord.serialize_result (written_record s w key v expiration)
   | None => ResultRecord.serialize (written_record s w key v expiration)
   end) = inr content ->
  exists w1,
    ResultStore.write key v expiration holder (s, w)
    = Ok tt (ResultStore.set_result_storage (Some (resolved_storage s w)) s, w1)
    /\ same_environment w w1
    /\ fs w1
       = match ResultStore.metadata_storage s with
         | Some ms =>
             <[(ms, key) := ResultRecord.serialize_metadata
                              (written_record s w key v expiration)]>
               (<[(resolved_storage s w, key) := content]> (fs w))
         | None => <[(resolved_storage s w, key) := content]> (fs w)
         end.
Proof.
  intros Hkey Hfree Hw Hwm Hser.
  apply String.eqb_neq in Hkey.
  destruct s as [rs mso lmo pr cache ser kfn].
  unfold uncontended, resolved_storage, written_record in *.
  cbn [ResultStore.lock_manager ResultStore.result_storage
       ResultStore.metadata_storage ResultStore.serializer] in *.
  unfold ResultStore.write.
  unfold bind at 1, lift at 1. rewrite holder_or_default.
  destruct lmo as [lm|]; [destruct (Hfree lm eq_refl) as [Hl|Hl]|];
    destruct rs as [rs|]; destruct mso as [ms|];
    try (specialize (Hwm _ eq_refl)).
  all: exec; rewrite ?or_else_holder, ?effective_holder_idem.
  all: repeat (progress (exec;
         rewrite ?or_else_holder, ?effective_holder_log, ?effective_holder_idem,
           ?Hl, ?Hw, ?Hwm, ?Hser,
           ?(or_else_nonempty key _ _ Hkey);
         rewrite ?bool_decide_eq_true_2 by (reflexivity || eauto);
         rewrite ?bool_decide_eq_false_2 by (discriminate || (intros [? ?]; discriminate)))).
  all: eexists; split; [reflexivity|].
  all: split; [repeat split|reflexivity].
Qed.

(** Reading a record stored as one blob. *)
Lemma read_combined_run (s : ResultStore.t) (w : World) (key : string)
    (holder : option string) (content : bytes) (r : ResultRecord.t) :
  ResultStore.metadata_storage s = None ->
  uncontended s w key holder ->
  read_anomaly w !! (resolved_storage s w, key) = None ->
  fs w !! (resolved_storage s w, key) = Some content ->
  ResultRecord.deserialize (Some content) = inr r ->
  exists s' w',
    ResultStore.read key holder (s, w) = Ok r (s', w')
    /\ storage_reads (trace w')
       = (resolved_storage s w, key) :: storage_reads (trace w).
Proof.
  intros Hms Hfree Ha Hf Hde.
  destruct s as [rs mso lmo pr cache ser kfn]. cbn in Hms. subst mso.
  unfold uncontended, resolved_storage in *.
  cbn [ResultStore.lock_manager ResultStore.result_storage] in *.
  unfold ResultStore.read.
  unfold bind at 1, lift at 1. rewrite holder_or_default.
  destruct lmo as [lm|]; [destruct (Hfree lm eq_refl) as [Hl|Hl]|];
    destruct rs as [rs|].
  all: repeat (progress (exec;
         rewrite ?or_else_holder, ?effective_holder_log, ?effective_holder_idem,
           ?Hl, ?Ha, ?Hf, ?Hde;
         rewrite ?bool_decide_eq_true_2 by reflexivity;
         rewrite ?bool_decide_eq_false_2 by discriminate)).
  all: do 2 eexists; split; reflexivity.
Qed.

Lemma uncontended_after (s : ResultStore.t) (w w1 : World) (key : string)
    (holder : option string) (h : handle) :
  same_environment w w1 ->
  uncontended s w key holder ->
  uncontended (ResultStore.set_result_storage (Some h) s) w1 key holder.
Proof.
  intros (Hl & _ & _ & _ & Hh) Hfree lm Hlm. rewrite Hl, Hh.
  apply Hfree. exact Hlm.
Qed.

(** C1 (as amended). For a key that is not empty, a serializer that
    supports the value, a key that no other holder has locked, backends
    that accept the write and answer the read, and a metadata storage (if
    one is configured) that is another backend than the result storage:
    [write(key, v)] followed by [read(key)] returns a record whose
    [result] is [v]. *)
Theorem write_read_roundtrip (s : ResultStore.t) (w : World) (key : string)
    (v : value) (expiration holder : option string) :
  key <> "" ->
  supported (ResultStore.serializer s) v ->
  uncontended s w key holder ->
  write_fault w !! resolved_storage s w = None ->
  read_anomaly w !! (resolved_storage s w, key) = None ->
  (forall ms, ResultStore.metadata_storage s = Some ms ->
     ms <> resolved_storage s w
     /\ write_fault w !! ms = None
     /\ read_anomaly w !! (ms, key) = None) ->
  exists s1 w1 r s2 w2,
    ResultStore.write key v expiration holder (s, w) = Ok tt (s1, w1)
    /\ ResultStore.read key holder (s1, w1) = Ok r (s2, w2)
    /\ ResultRecord.result r = v.
Proof.
  intros Hkey Hsup Hfree Hw Ha Hms.
  set (rec := written_record s w key v expiration).
  assert (Hsup' : supported (ResultRecord.serializer rec) (ResultRecord.result rec))
    by exact Hsup.
  destruct (record_roundtrip rec Hsup') as (content & Hser & Hde).
  destruct Hsup as [Hreg (payload & Hd & Hl)].
  destruct (ResultStore.metadata_storage s) as [ms|] eqn:Emeta.
  - destruct (Hms ms eq_refl) as (Hne & Hwm & Ham).
    destruct (write_effect s w key v expiration holder payload Hkey Hfree Hw)
      as (w1 & Hwrite & Henv & Hfs).
    { intros ms' E. rewrite Emeta in E. injection E as <-. exact Hwm. }
    { rewrite Emeta. unfold ResultRecord.serialize_result. fold rec.
      change (ResultRecord.serializer rec) with (ResultStore.serializer s).
      change (ResultRecord.result rec) with v. rewrite Hd. reflexivity. }
    rewrite Emeta in Hfs. fold rec in Hfs.
    set (s1 := ResultStore.set_result_storage (Some (resolved_storage s w)) s) in *.
    pose proof Henv as (_ & Hra & _ & _ & _).
    destruct (read_split_run s1 w1 key holder ms
                (ResultRecord.serialize_metadata rec) (ResultRecord.metadata rec))
      as [Hread _].
    + destruct s; exact Emeta.
    + apply (uncontended_after s w w1); assumption.
    + rewrite Hra. exact Ham.
    + rewrite Hfs. apply lookup_insert_eq.
    + apply metadata_roundtrip. exact Hreg.
    + change (resolved_storage s1 w1) with (resolved_storage s w) in Hread.
      destruct (Hread key payload v) as (s2 & w2 & Hr & _).
      * reflexivity.
      * rewrite Hra. exact Ha.
      * rewrite Hfs. rewrite lookup_insert_ne by (intros [= E]; exact (Hne E)).
        apply lookup_insert_eq.
      * exact Hl.
      * exists s1, w1, (ResultRecord.mk (ResultRecord.metadata rec) v), s2, w2.
        repeat split; assumption.
  - destruct (write_effect s w key v expiration holder content Hkey Hfree Hw)
      as (w1 & Hwrite & Henv & Hfs).
    { intros ms' E. rewrite Emeta in E. discriminate. }
    { rewrite Emeta. exact Hser. }
    rewrite Emeta in Hfs.
    set (s1 := ResultStore.set_result_storage (Some (resolved_storage s w)) s) in *.
    pose proof Henv as (_ & Hra & _ & _ & _).
    destruct (read_combined_run s1 w1 key holder content rec)
      as (s2 & w2 & Hr & _).
    + destruct s; exact Emeta.
    + apply (uncontended_after s w w1); assumption.
    + rewrite Hra. exact Ha.
    + change (resolved_storage s1 w1) with (resolved_storage s w).
      rewrite Hfs. apply lookup_insert_eq.
    + exact Hde.
    + exists s1, w1, rec, s2, w2. repeat split; assumption.
Qed.

Ltac unfold_reference :=
  unfold PersistedResult.write, PersistedResult._get_storage_block,
    PersistedResult.self, ResultStore.new, get_default_result_storage,
    DEFAULT_STORAGE_KEY_FN in *.

(** Case analysis on the next test a hypothesis is stuck on. *)
Ltac split_next_in H :=
  match type of H with
  | context [match ?x with _ => _ end] =>
      lazymatch x with
      | context [match _ with _ => _ end] => fail
      | _ => destruct x eqn:?
      end
  end.

(** The calls a run added to the trace [t]: solves [l = ?added ++ t] for a
    list [l] that ends in [t]. *)
Ltac added_to l t :=
  lazymatch l with
  | t => constr:(@nil event)
  | ?e :: ?l' => let p := added_to l' t in constr:(e :: p)
  end.

Ltac added_calls :=
  lazymatch goal with
  | |- ?l = (?a ++ ?t)%list => let p := added_to l t in unify a p; reflexivity
  end.

(** [write] on a reference that is persisted, or that never persists, is
    a no-op. *)
Lemma reference_write_noop (r : PersistedResult.t) (w : World) (obj : option value) :
  PersistedResult._persisted r = true \/ PersistedResult.serialize_to_none r = true ->
  PersistedResult.write obj (r, w) = Ok tt (r, w).
Proof.
  intros Hflag. unfold PersistedResult.write, bind, PersistedResult.self, gets.
  cbn. destruct Hflag as [-> | ->]; [reflexivity|].
  rewrite orb_true_r. reflexivity.
Qed.

(** A [write] that went to storage made one [write_path] call and set the
    [_persisted] flag. *)
Lemma reference_write_once (r r1 : PersistedResult.t) (w w1 : World)
    (obj : option value) :
  PersistedResult._persisted r = false ->
  PersistedResult.serialize_to_none r = false ->
  PersistedResult.write obj (r, w) = Ok tt (r1, w1) ->
  count_writes (trace w1) = S (count_writes (trace w))
  /\ PersistedResult._persisted r1 = true.
Proof.
  intros Hp Hn Hrun.
  destruct r as [ty sty key bid exp stn cache per should sb ser].
  cbn in Hp, Hn. subst per stn.
  repeat (progress (unfold_reference; unfold_store; unfold_monad;
                    unfold or_else_opt, or_else, ResultStore.generate_default_holder in Hrun;
                    cbn in Hrun)).
  repeat (split_next_in Hrun; cbn in Hrun; try discriminate).
  all: injection Hrun as <- <-; split; reflexivity.
Qed.

(** C2. [PersistedResult.write] is idempotent. It is a no-op (no storage
    call, no change of the reference) whenever [_persisted] or
    [serialize_to_none] is set; and when a first [write] on a reference
    with neither flag set has returned, it made exactly one storage write
    and a second [write] on the same reference makes none: two calls, one
    storage write. *)
Theorem reference_write_idempotent (r r1 : PersistedResult.t) (w w1 : World)
    (obj obj' : option value) :
  PersistedResult._persisted r = false ->
  PersistedResult.serialize_to_none r = false ->
  PersistedResult.write obj (r, w) = Ok tt (r1, w1) ->
  count_writes (trace w1) = S (count_writes (trace w))
  /\ PersistedResult.write obj' (r1, w1) = Ok tt (r1, w1)
  /\ (forall r' w' o,
        PersistedResult._persisted r' = true
        \/ PersistedResult.serialize_to_none r' = true ->
        PersistedResult.write o (r', w') = Ok tt (r', w')).
Proof.
  intros Hp Hn Hrun.
  destruct (reference_write_once r r1 w w1 obj Hp Hn Hrun) as [Hcount Hp1].
  split; [exact Hcount|]. split.
  - apply reference_write_noop. left. exact Hp1.
  - intros r' w' o. apply reference_write_noop.
Qed.


(** ** Dictionaries *)

Lemma dict_has_get (k : string) (d : list (string * value)) :
  dict_has k d = bool_decide (dict_get k d <> None).
Proof.
  induction d as [|[k' v] d IH]; cbn; [reflexivity|].
  destruct (String.eqb k k'); [reflexivity|exact IH].
Qed.

Lemma dict_get_set_eq (k : string) (v : value) (d : list (string * value)) :
  dict_get k (dict_set k v d) = Some v.
Proof.
  induction d as [|[k' v'] d IH]; cbn.
  - rewrite String.eqb_refl. reflexivity.
  - destruct (String.eqb k k') eqn:E; cbn; rewrite E; [reflexivity|exact IH].
Qed.

Lemma dict_get_set_ne (k k' : string) (v : value) (d : list (string * value)) :
  k' <> k -> dict_get k' (dict_set k v d) = dict_get k' d.
Proof.
  intros Hne. apply String.eqb_neq in Hne.
  induction d as [|[k0 v0] d IH]; cbn.
  - rewrite Hne. reflexivity.
  - destruct (String.eqb k k0) eqn:E; cbn.
    + apply String.eqb_eq in E. subst k0. rewrite Hne. reflexivity.
    + destruct (String.eqb k' k0); [reflexivity|exact IH].
Qed.

Lemma dict_get_del_eq (k : string) (d : list (string * value)) :
  dict_get k (dict_del k d) = None.
Proof.
  induction d as [|[k' v'] d IH]; cbn; [reflexivity|].
  destruct (String.eqb k k') eqn:E; cbn; [exact IH|]. rewrite E. exact IH.
Qed.

Lemma dict_get_del_ne (k k' : string) (d : list (string * value)) :
  k' <> k -> dict_get k' (dict_del k d) = dict_get k' d.
Proof.
  intros Hne. apply String.eqb_neq in Hne.
  induction d as [|[k0 v0] d IH]; cbn; [reflexivity|].
  destruct (String.eqb k k0) eqn:E; cbn.
  - apply String.eqb_eq in E. subst k0. rewrite Hne. exact IH.
  - destruct (String.eqb k' k0); [reflexivity|exact IH].
Qed.

Lemma dict_del_absent (k : string) (d : list (string * value)) :
  dict_get k d = None -> dict_del k d = d.
Proof.
  induction d as [|[k' v'] d IH]; cbn; [reflexivity|].
  destruct (String.eqb k k'); [discriminate|]. intros E. rewrite IH by exact E.
  reflexivity.
Qed.

(** Moving one legacy field into the nested metadata. *)
Lemma move_to_metadata_spec (f : string) (d m : list (string * value)) :
  f <> "metadata" ->
  dict_get "metadata" d = Some (VDict m) ->
  exists d' m',
    ResultRecord.move_to_metadata f d = inr d'
    /\ dict_get "metadata" d' = Some (VDict m')
    /\ dict_get f d' = None
    /\ (forall k, k <> f -> k <> "metadata" -> dict_get k d' = dict_get k d)
    /\ dict_get f m' = match dict_get f d with
                       | Some x => Some x
                       | None => dict_get f m
                       end
    /\ (forall k, k <> f -> dict_get k m' = dict_get k m)
    /\ (dict_get f d = None -> d' = d).
Proof.
  intros Hf Hm. unfold ResultRecord.move_to_metadata, ResultRecord.set_in_metadata.
  destruct (dict_get f d) as [x|] eqn:Ef.
  - rewrite dict_get_del_ne by congruence. rewrite Hm.
    eexists _, _. split; [reflexivity|].
    split; [apply dict_get_set_eq|].
    split; [rewrite dict_get_set_ne by exact Hf; apply dict_get_del_eq|].
    split; [intros k Hk Hk'; rewrite dict_get_set_ne by exact Hk';
            apply dict_get_del_ne; exact Hk|].
    split; [apply dict_get_set_eq|].
    split; [intros k Hk; apply dict_get_set_ne; exact Hk|discriminate].
  - exists d, m. split; [reflexivity|]. split; [exact Hm|].
    split; [exact Ef|]. split; [reflexivity|]. split; [reflexivity|].
    split; reflexivity.
Qed.

(** ** The legacy-format adapter *)

Definition legacy_fields : list string :=
  ["expiration"; "serializer"; "prefect_version"].

(** The [metadata] entry of the input, when there is one, is a dict. *)
Definition metadata_well_formed (d : list (string * value)) : Prop :=
  match dict_get "metadata" d with
  | Some (VDict _) | None => True
  | Some _ => False
  end.

(** The nested metadata the input came with; none is the empty dict. *)
Definition nested_metadata (d : list (string * value)) : list (string * value) :=
  match dict_get "metadata" d with
  | Some (VDict m) => m
  | _ => []
  end.

(** An input in the nested layout: a [metadata] entry and no legacy
    field. *)
Definition already_nested (d : list (string * value)) : Prop :=
  dict_get "metadata" d <> None
  /\ dict_get "data" d = None
  /\ forall f, In f legacy_fields -> dict_get f d = None.

Lemma coerce_nested_unchanged (d : list (string * value)) :
  already_nested d ->
  ResultRecord.coerce_old_format (VDict d) = inr (VDict d).
Proof.
  intros (Hm & Hd & Hl). unfold ResultRecord.coerce_old_format.
  rewrite Hd, dict_has_get, bool_decide_eq_true_2 by exact Hm.
  assert (E1 := Hl "expiration" ltac:(cbn; auto)).
  assert (E2 := Hl "serializer" ltac:(cbn; auto)).
  assert (E3 := Hl "prefect_version" ltac:(cbn; auto)).
  unfold ResultRecord.move_to_metadata, ebind.
  rewrite E1, E2, E3. reflexivity.
Qed.

Lemma coerce_old_format_spec (d : list (string * value)) :
  metadata_well_formed d ->
  exists d' m',
    ResultRecord.coerce_old_format (VDict d) = inr (VDict d')
    /\ dict_get "metadata" d' = Some (VDict m')
    /\ dict_get "data" d' = None
    /\ (forall f, In f legacy_fields -> dict_get f d' = None)
    /\ dict_get "result" d'
       = match dict_get "data" d with
         | Some x => Some x
         | None => dict_get "result" d
         end
    /\ (forall f, In f legacy_fields ->
          dict_get f m' = match dict_get f d with
                          | Some x => Some x
                          | None => dict_get f (nested_metadata d)
                          end)
    /\ (forall k, ~ In k legacy_fields ->
          dict_get k m' = dict_get k (nested_metadata d))
    /\ (forall k, ~ In k ("data" :: "result" :: "metadata" :: legacy_fields) ->
          dict_get k d' = dict_get k d).
Proof.
  intros Hwf. unfold ResultRecord.coerce_old_format.
  set (d1 := match dict_get "data" d with
             | Some x => dict_set "result" x (dict_del "data" d)
             | None => d
             end).
  assert (H1m : dict_get "metadata" d1 = dict_get "metadata" d).
  { subst d1. destruct (dict_get "data" d); [|reflexivity].
    rewrite dict_get_set_ne, dict_get_del_ne by discriminate. reflexivity. }
  assert (H1d : dict_get "data" d1 = None).
  { subst d1. destruct (dict_get "data" d) eqn:E; [|exact E].
    rewrite dict_get_set_ne by discriminate. apply dict_get_del_eq. }
  assert (H1r : dict_get "result" d1
                = match dict_get "data" d with
                  | Some x => Some x
                  | None => dict_get "result" d
                  end).
  { subst d1. destruct (dict_get "data" d); [apply dict_get_set_eq|reflexivity]. }
  assert (H1o : forall k, k <> "data" -> k <> "result" ->
                  dict_get k d1 = dict_get k d).
  { intros k Hk Hk'. subst d1. destruct (dict_get "data" d); [|reflexivity].
    rewrite dict_get_set_ne, dict_get_del_ne by assumption. reflexivity. }
  clearbody d1.
  set (d2 := if dict_has "metadata" d1 then d1
             else dict_set "metadata" (VDict []) d1).
  assert (H2m : dict_get "metadata" d2 = Some (VDict (nested_metadata d))).
  { subst d2. unfold nested_metadata, metadata_well_formed in *.
    rewrite dict_has_get, H1m.
    destruct (dict_get "metadata" d) as [[]|] eqn:E; try contradiction.
    - rewrite bool_decide_eq_true_2 by discriminate. exact H1m.
    - rewrite bool_decide_eq_false_2 by (intros Hn; apply Hn; reflexivity).
      apply dict_get_set_eq. }
  assert (H2o : forall k, k <> "metadata" -> dict_get k d2 = dict_get k d1).
  { intros k Hk. subst d2. destruct (dict_has "metadata" d1); [reflexivity|].
    apply dict_get_set_ne. exact Hk. }
  clearbody d2.
  destruct (move_to_metadata_spec "expiration" d2 _ ltac:(discriminate) H2m)
    as (d3 & m3 & E3 & H3m & H3f & H3o & H3v & H3k & _).
  destruct (move_to_metadata_spec "serializer" d3 _ ltac:(discriminate) H3m)
    as (d4 & m4 & E4 & H4m & H4f & H4o & H4v & H4k & _).
  destruct (move_to_metadata_spec "prefect_version" d4 _ ltac:(discriminate) H4m)
    as (d5 & m5 & E5 & H5m & H5f & H5o & H5v & H5k & _).
  exists d5, m5.
  split; [rewrite E3; cbn [ebind]; rewrite E4; cbn [ebind]; rewrite E5;
          reflexivity|].
  split; [exact H5m|].
  split.
  { rewrite H5o, H4o, H3o, H2o by discriminate. exact H1d. }
  split.
  { intros f [<-|[<-|[<-|[]]]].
    - rewrite H5o, H4o by discriminate. exact H3f.
    - rewrite H5o by discriminate. exact H4f.
    - exact H5f. }
  split.
  { rewrite H5o, H4o, H3o, H2o by discriminate. exact H1r. }
  split.
  { intros f [<-|[<-|[<-|[]]]].
    - rewrite H5k, H4k by discriminate. rewrite H3v, H2o, H1o by discriminate.
      reflexivity.
    - rewrite H5k by discriminate. rewrite H4v, H3o, H2o, H1o by discriminate.
      rewrite H3k by discriminate. reflexivity.
    - rewrite H5v, H4o, H3o, H2o, H1o by discriminate.
      rewrite H4k, H3k by discriminate. reflexivity. }
  split.
  { intros k Hk. cbn in Hk.
    rewrite H5k, H4k, H3k by (intros ->; apply Hk; auto). reflexivity. }
  intros k Hk. cbn in Hk.
  rewrite H5o, H4o, H3o, H2o, H1o by (intros ->; apply Hk; auto 7).
  reflexivity.
Qed.

(** C8 (as amended). For every input dictionary whose [metadata] entry, if
    there is one, is a dictionary, the adapter returns a dictionary in the
    nested layout: [data] is renamed to [result]; [expiration],
    [serializer] and [prefect_version] are moved from the top level into
    [metadata] (over the nested values of the same name); every other
    entry, at the top level and in [metadata], is kept. An input already
    in the nested layout is returned as it is, the adapter changes nothing
    when run again on its output, and validation sees the migrated
    dictionary only: a legacy record validates to what its nested form
    validates to. *)
Theorem coerce_old_format_migrates (d : list (string * value)) :
  metadata_well_formed d ->
  exists d' m',
    ResultRecord.coerce_old_format (VDict d) = inr (VDict d')
    /\ dict_get "metadata" d' = Some (VDict m')
    /\ dict_get "data" d' = None
    /\ (forall f, In f legacy_fields -> dict_get f d' = None)
    /\ dict_get "result" d'
       = match dict_get "data" d with
         | Some x => Some x
         | None => dict_get "result" d
         end
    /\ (forall f, In f legacy_fields ->
          dict_get f m' = match dict_get f d with
                          | Some x => Some x
                          | None => dict_get f (nested_metadata d)
                          end)
    /\ (forall k, ~ In k legacy_fields ->
          dict_get k m' = dict_get k (nested_metadata d))
    /\ (forall k, ~ In k ("data" :: "result" :: "metadata" :: legacy_fields) ->
          dict_get k d' = dict_get k d)
    /\ (already_nested d -> d' = d)
    /\ ResultRecord.coerce_old_format (VDict d') = inr (VDict d')
    /\ ResultRecord.model_validate (VDict d)
       = ResultRecord.validate_fields (VDict d')
    /\ ResultRecord.model_validate (VDict d')
       = ResultRecord.model_validate (VDict d).
Proof.
  intros Hwf.
  destruct (coerce_old_format_spec d Hwf)
    as (d' & m' & Hrun & Hm & Hd & Hl & Hr & Hmv & Hmk & Hk).
  assert (Hnested : already_nested d').
  { split; [rewrite Hm; discriminate|]. split; assumption. }
  assert (Hagain := coerce_nested_unchanged d' Hnested).
  exists d', m'. repeat (split; [assumption|]).
  split.
  { intros Hn. rewrite (coerce_nested_unchanged d Hn) in Hrun.
    congruence. }
  split; [exact Hagain|].
  unfold ResultRecord.model_validate. rewrite Hrun, Hagain. split; reflexivity.
Qed.

(** ** Where a persisted record lives *)

Lemma string_length_app (s1 s2 : string) :
  String.length (s1 ++ s2) = String.length s1 + String.length s2.
Proof.
  induction s1 as [|c s1 IH]; [reflexivity|].
  change (String c s1 ++ s2) with (String c (s1 ++ s2)). cbn.
  rewrite IH. reflexivity.
Qed.

Lemma parameters_path_differs (identifier : string) :
  "parameters/" ++ identifier <> identifier.
Proof.
  intros E. apply (f_equal String.length) in E.
  rewrite string_length_app in E. cbn in E. lia.
Qed.

(** A record persisted by [_persist_result_record] is found under the
    [storage_key] its metadata records. *)
Lemma persisted_under_recorded_key (s s' : ResultStore.t) (w w' : World)
    (record : ResultRecord.t) (holder key : string) :
  ResultRecordMetadata.storage_key (ResultRecord.metadata record) = Some key ->
  ResultStore._persist_result_record record holder (s, w) = Ok tt (s', w') ->
  match ResultStore.metadata_storage s with
  | None =>
      exists content,
        ResultRecord.serialize record = inr content
        /\ fs w' !! (resolved_storage s w, key) = Some content
  | Some ms =>
      exists payload,
        ResultRecord.serialize_result record = inr payload
        /\ fs w' !! (ms, key) = Some (ResultRecord.serialize_metadata record)
        /\ (ms <> resolved_storage s w ->
            fs w' !! (resolved_storage s w, key) = Some payload)
  end.
Proof.
  intros Hkey Hrun.
  destruct s as [rs mso lmo pr cache ser kfn].
  unfold resolved_storage. cbn [ResultStore.metadata_storage ResultStore.result_storage].
  unfold ResultStore._persist_result_record in Hrun. rewrite Hkey in Hrun.
  repeat (progress (unfold_store; unfold_monad;
                    unfold or_else_opt, or_else, ResultStore.generate_default_holder in Hrun;
                    cbn in Hrun)).
  repeat (split_next_in Hrun; cbn in Hrun; try discriminate).
  all: injection Hrun as <- <-; cbn.
  all: eexists; split; [reflexivity|].
  all: try (split; [apply lookup_insert_eq|]; intros Hne;
            rewrite lookup_insert_ne by (intros [= E]; exact (Hne E))).
  all: apply lookup_insert_eq.
Qed.

(** What [store_parameters] does: the record it serializes records the
    identifier as its [storage_key], and the blob goes to the path
    [parameters/<identifier>]. *)
Lemma store_parameters_run (s : ResultStore.t) (w : World) (rs : handle)
    (identifier : string) (parameters : value) (content : bytes) :
  ResultStore.result_storage s = Some rs ->
  write_fault w !! rs = None ->
  ResultRecord.serialize
    (ResultRecord.mk
       (ResultRecordMetadata.new (ResultStore.serializer s) None
          (Some identifier) None)
       parameters) = inr content ->
  ResultStore.store_parameters identifier parameters (s, w)
  = Ok tt (s, set_fs (<[(rs, "parameters/" ++ identifier) := content]> (fs w))
                (log (EvWrite rs ("parameters/" ++ identifier) content) w)).
Proof.
  intros Hrs Hw Hser. destruct s as [rso mso lmo pr cache ser kfn].
  cbn in Hrs, Hser. subst rso.
  repeat (progress (exec; rewrite ?Hser, ?Hw)). reflexivity.
Qed.

(** C9, on [store_parameters]. When [store_parameters] returns, the blob
    it wrote is under the path [parameters/<identifier>], while the
    metadata inside that blob records [<identifier>] as the [storage_key];
    the two differ, and nothing was written under the recorded key. *)
Theorem store_parameters_key_mismatch (s s' : ResultStore.t) (w w' : World)
    (rs : handle) (identifier : string) (parameters : value) :
  ResultStore.result_storage s = Some rs ->
  ResultStore.store_parameters identifier parameters (s, w) = Ok tt (s', w') ->
  exists record content,
    ResultRecord.serialize record = inr content
    /\ ResultRecord.result record = parameters
    /\ ResultRecordMetadata.storage_key (ResultRecord.metadata record)
       = Some identifier
    /\ fs w' !! (rs, "parameters/" ++ identifier) = Some content
    /\ "parameters/" ++ identifier <> identifier
    /\ fs w' !! (rs, identifier) = fs w !! (rs, identifier).
Proof.
  intros Hrs Hrun. destruct s as [rso mso lmo pr cache ser kfn].
  cbn in Hrs. subst rso.
  eexists (ResultRecord.mk (ResultRecordMetadata.new ser None (Some identifier) None)
             parameters).
  repeat (progress (unfold_store; unfold_monad; cbn in Hrun)).
  destruct (ResultRecord.serialize _) as [e|content] eqn:Eser;
    cbn in Hrun; [discriminate|].
  destruct (write_fault w !! rs); cbn in Hrun; [discriminate|].
  injection Hrun as <- <-. exists content. cbn.
  split; [reflexivity|]. split; [reflexivity|]. split; [reflexivity|].
  split; [apply lookup_insert_eq|]. split; [apply parameters_path_differs|].
  apply lookup_insert_ne. intros [= E]. exact (parameters_path_differs _ E).
Qed.


(** ** Locking through the store *)

(** X1. Without a lock manager, every lock operation of the store raises
    [ConfigurationError] and leaves the store and the world as they
    were. *)
Theorem lock_operations_need_lock_manager (s : ResultStore.t) (w : World)
    (key : string) (holder : option string) (timeout : option Z) :
  ResultStore.lock_manager s = None ->
  ResultStore.acquire_lock key holder timeout (s, w) = Raise ConfigurationError (s, w)
  /\ ResultStore.release_lock key holder (s, w) = Raise ConfigurationError (s, w)
  /\ ResultStore.is_locked key (s, w) = Raise ConfigurationError (s, w)
  /\ ResultStore.is_lock_holder key holder (s, w) = Raise ConfigurationError (s, w)
  /\ ResultStore.wait_for_lock key timeout (s, w) = Raise ConfigurationError (s, w).
Proof.
  intros Hlm. destruct s as [rs ms lmo pr cache ser kfn]. cbn in Hlm. subst lmo.
  unfold ResultStore.acquire_lock, ResultStore.release_lock,
    ResultStore.is_lock_holder.
  repeat match goal with |- _ /\ _ => split end.
  all: exec; rewrite ?holder_or_default; reflexivity.
Qed.

(** X2. The holder of the lock of a key writes that key, with or
    without a separate metadata storage: the write goes through and
    stores the record under the key; the lock table is as before, so the
    lock is still held by the same holder; and the calls the write added
    to the trace hold no acquire, no release and no wait. *)
Theorem holder_writes_locked_key (s : ResultStore.t) (w : World) (lm : handle)
    (key : string) (v : value) (expiration holder : option string)
    (payload : bytes) :
  key <> "" ->
  ResultStore.lock_manager s = Some lm ->
  locks w !! (lm, key) = Some (effective_holder holder w) ->
  write_fault w !! resolved_storage s w = None ->
  (forall ms, ResultStore.metadata_storage s = Some ms -> write_fault w !! ms = None) ->
  dumps (Serializer.type (ResultStore.serializer s)) v = inr payload ->
  exists s1 w1 added,
    ResultStore.write key v expiration holder (s, w) = Ok tt (s1, w1)
    /\ fs w1
       = match ResultStore.metadata_storage s with
         | Some ms =>
             <[(ms, key) := ResultRecord.serialize_metadata
                              (written_record s w key v expiration)]>
               (<[(resolved_storage s w, key) := payload]> (fs w))
         | None =>
             <[(resolved_storage s w, key) :=
                 json_dumps (ResultRecord.to_doc
                               (ResultRecord.metadata
                                  (written_record s w key v expiration))
                               payload)]> (fs w)
         end
    /\ locks w1 = locks w
    /\ locks w1 !! (lm, key) = Some (effective_holder holder w)
    /\ trace w1 = (added ++ trace w)%list
    /\ lock_calls added = 0.
Proof.
  intros Hkey Hlm Hheld Hw Hwm Hd.
  apply String.eqb_neq in Hkey.
  destruct s as [rs mso lmo pr cache ser kfn].
  unfold resolved_storage, written_record in *.
  cbn [ResultStore.lock_manager ResultStore.result_storage
       ResultStore.metadata_storage ResultStore.serializer] in *.
  subst lmo.
  unfold ResultStore.write.
  unfold bind at 1, lift at 1. rewrite holder_or_default.
  destruct rs as [rs|]; destruct mso as [ms|];
    try (specialize (Hwm _ eq_refl)).
  all: repeat (progress (exec;
         unfold ResultRecord.serialize, ResultRecord.serialize_result,
           ResultRecord.serializer;
         cbn;
         rewrite ?or_else_holder, ?effective_holder_log, ?effective_holder_idem,
           ?Hheld, ?Hw, ?Hwm, ?Hd, ?(or_else_nonempty key _ _ Hkey);
         rewrite ?bool_decide_eq_true_2 by (reflexivity || eauto))).
  all: eexists _, _, _; split; [reflexivity|]; cbn.
  all: split; [reflexivity|]; split; [reflexivity|]; split; [exact Hheld|].
  all: split; [added_calls|reflexivity].
Qed.

(** X3. When the serializer fails on the value, [write] raises
    [SerializationError], whatever the serializer raised, and no storage
    call is made: content and trace of storage calls are as before. *)
Theorem write_serialization_error (s : ResultStore.t) (w : World)
    (key : string) (v : value) (expiration holder : option string) (e : exn) :
  key <> "" ->
  uncontended s w key holder ->
  dumps (Serializer.type (ResultStore.serializer s)) v = inl e ->
  exists s1 w1,
    ResultStore.write key v expiration holder (s, w)
    = Raise SerializationError (s1, w1)
    /\ fs w1 = fs w
    /\ count_writes (trace w1) = count_writes (trace w).
Proof.
  intros Hkey Hfree Hd.
  apply String.eqb_neq in Hkey.
  destruct s as [rs mso lmo pr cache ser kfn].
  unfold uncontended in *.
  cbn [ResultStore.lock_manager ResultStore.result_storage
       ResultStore.metadata_storage ResultStore.serializer] in *.
  unfold ResultStore.write.
  unfold bind at 1, lift at 1. rewrite holder_or_default.
  destruct lmo as [lm|]; [destruct (Hfree lm eq_refl) as [Hl|Hl]|];
    destruct rs as [rs|]; destruct mso as [ms|].
  all: repeat (progress (exec;
         unfold ResultRecord.serialize, ResultRecord.serialize_result,
           ResultRecord.serializer;
         cbn;
         rewrite ?or_else_holder, ?effective_holder_log, ?effective_holder_idem,
           ?Hl, ?Hd, ?(or_else_nonempty key _ _ Hkey);
         rewrite ?bool_decide_eq_true_2 by (reflexivity || eauto);
         rewrite ?bool_decide_eq_false_2 by (discriminate || (intros [? ?]; discriminate)))).
  all: do 2 eexists; split; [reflexivity|]; split; reflexivity.
Qed.

(** ** Split storage *)

(** X4. With a separate metadata storage, the payload and the metadata are
    written one after the other with no rollback: when the metadata write
    fails, [write] raises that error and the payload stays stored under
    the key, with no metadata beside it. *)
Theorem split_write_is_not_atomic (s : ResultStore.t) (w : World)
    (ms : handle) (key : string) (v : value) (expiration holder : option string)
    (payload : bytes) (e : exn) :
  key <> "" ->
  uncontended s w key holder ->
  ResultStore.metadata_storage s = Some ms ->
  ms <> resolved_storage s w ->
  write_fault w !! resolved_storage s w = None ->
  write_fault w !! ms = Some e ->
  dumps (Serializer.type (ResultStore.serializer s)) v = inr payload ->
  exists s1 w1,
    ResultStore.write key v expiration holder (s, w) = Raise e (s1, w1)
    /\ fs w1 !! (resolved_storage s w, key) = Some payload
    /\ fs w1 !! (ms, key) = fs w !! (ms, key).
Proof.
  intros Hkey Hfree Hms Hne Hw Hwm Hd.
  apply String.eqb_neq in Hkey.
  destruct s as [rs mso lmo pr cache ser kfn].
  unfold uncontended, resolved_storage in *.
  cbn [ResultStore.lock_manager ResultStore.result_storage
       ResultStore.metadata_storage ResultStore.serializer] in *.
  subst mso.
  unfold ResultStore.write.
  unfold bind at 1, lift at 1. rewrite holder_or_default.
  destruct lmo as [lm|]; [destruct (Hfree lm eq_refl) as [Hl|Hl]|];
    destruct rs as [rs|].
  all: repeat (progress (exec;
         unfold ResultRecord.serialize_result, ResultRecord.serializer;
         cbn;
         rewrite ?or_else_holder, ?effective_holder_log, ?effective_holder_idem,
           ?Hl, ?Hd, ?Hw, ?Hwm, ?(or_else_nonempty key _ _ Hkey);
         rewrite ?bool_decide_eq_true_2 by (reflexivity || eauto);
         rewrite ?bool_decide_eq_false_2 by (discriminate || (intros [? ?]; discriminate)))).
  all: do 2 eexists; split; [reflexivity|]; cbn.
  all: split; [apply lookup_insert_eq|].
  all: apply lookup_insert_ne; intros [= E]; exact (Hne (eq_sym E)).
Qed.

(** ** Sequences of writes and reads *)

(** What a successful [write] leaves in storage, from the serializer's
    output. *)
Lemma write_stores (s : ResultStore.t) (w : World) (key : string) (v : value)
    (expiration holder : option string) (payload : bytes) :
  key <> "" ->
  uncontended s w key holder ->
  write_fault w !! resolved_storage s w = None ->
  (forall ms, ResultStore.metadata_storage s = Some ms -> write_fault w !! ms = None) ->
  dumps (Serializer.type (ResultStore.serializer s)) v = inr payload ->
  exists w1,
    ResultStore.write key v expiration holder (s, w)
    = Ok tt (ResultStore.set_result_storage (Some (resolved_storage s w)) s, w1)
    /\ same_environment w w1
    /\ fs w1
       = match ResultStore.metadata_storage s with
         | Some ms =>
             <[(ms, key) := ResultRecord.serialize_metadata
                              (written_record s w key v expiration)]>
               (<[(resolved_storage s w, key) := payload]> (fs w))
         | None =>
             <[(resolved_storage s w, key) :=
                 json_dumps (ResultRecord.to_doc
                               (ResultRecord.metadata
                                  (written_record s w key v expiration))
                               payload)]> (fs w)
         end.
Proof.
  intros Hkey Hfree Hw Hwm Hd.
  destruct (write_effect s w key v expiration holder
              (match ResultStore.metadata_storage s with
               | Some _ => payload
               | None =>
                   json_dumps (ResultRecord.to_doc
                                 (ResultRecord.metadata
                                    (written_record s w key v expiration))
                                 payload)
               end) Hkey Hfree Hw Hwm)
    as (w1 & Hrun & Henv & Hfs).
  { unfold ResultRecord.serialize, ResultRecord.serialize_result,
      ResultRecord.serializer. cbn. rewrite Hd.
    destruct (ResultStore.metadata_storage s); reflexivity. }
  exists w1. split; [exact Hrun|]. split; [exact Henv|].
  rewrite Hfs. destruct (ResultStore.metadata_storage s); reflexivity.
Qed.

(** X5. After a [write] under a key, [exists] of that key answers true. *)
Theorem exists_after_write (s : ResultStore.t) (w : World) (key : string)
    (v : value) (expiration holder : option string) (payload : bytes) :
  key <> "" ->
  uncontended s w key holder ->
  write_fault w !! resolved_storage s w = None ->
  read_anomaly w !! (resolved_storage s w, key) = None ->
  (forall ms, ResultStore.metadata_storage s = Some ms ->
     write_fault w !! ms = None /\ read_anomaly w !! (ms, key) = None) ->
  dumps (Serializer.type (ResultStore.serializer s)) v = inr payload ->
  exists s1 w1 w2,
    ResultStore.write key v expiration holder (s, w) = Ok tt (s1, w1)
    /\ ResultStore.exists_ key (s1, w1) = Ok true (s1, w2).
Proof.
  intros Hkey Hfree Hw Ha Hms Hd.
  destruct (write_stores s w key v expiration holder payload Hkey Hfree Hw)
    as (w1 & Hrun & (_ & Hra & _) & Hfs); [intros ms E; apply (Hms ms E)|exact Hd|].
  destruct s as [rs mso lmo pr cache ser kfn].
  unfold resolved_storage in *.
  cbn [ResultStore.metadata_storage ResultStore.result_storage] in *.
  destruct mso as [ms|].
  - destruct (Hms ms eq_refl) as [_ Ham].
    eexists _, w1, _. split; [exact Hrun|]. clear Hrun.
    do 2 exec. rewrite Hra, Ham, Hfs, lookup_insert_eq. cbn. reflexivity.
  - eexists _, w1, _. split; [exact Hrun|]. clear Hrun.
    do 2 exec. rewrite Hra, Ha, Hfs, lookup_insert_eq. cbn. reflexivity.
Qed.

(** Decoding the blob of a record. *)
Lemma deserialize_record_doc (md : ResultRecordMetadata.t) (payload : bytes)
    (v : value) :
  registered (Serializer.type (ResultRecordMetadata.serializer md)) = true ->
  loads (Serializer.type (ResultRecordMetadata.serializer md)) payload = inr v ->
  ResultRecord.deserialize (Some (json_dumps (ResultRecord.to_doc md payload)))
  = inr (ResultRecord.mk md v).
Proof.
  intros Hreg Hl.
  unfold ResultRecord.deserialize, ResultRecord.model_validate_json.
  rewrite json_loads_dumps by apply record_doc_is_json.
  unfold ResultRecord.model_validate, ResultRecord.to_doc. cbn.
  rewrite metadata_validate_doc by exact Hreg. cbn.
  unfold ResultRecord.serializer. cbn. rewrite Hl. reflexivity.
Qed.

(** Reading back what a write left in storage. *)
Lemma read_stored (s : ResultStore.t) (w : World) (key : string)
    (holder : option string) (md : ResultRecordMetadata.t) (payload : bytes)
    (v : value) :
  registered (Serializer.type (ResultRecordMetadata.serializer md)) = true ->
  ResultRecordMetadata.storage_key md = Some key ->
  loads (Serializer.type (ResultRecordMetadata.serializer md)) payload = inr v ->
  uncontended s w key holder ->
  read_anomaly w !! (resolved_storage s w, key) = None ->
  match ResultStore.metadata_storage s with
  | Some ms =>
      read_anomaly w !! (ms, key) = None
      /\ fs w !! (ms, key) = Some (ResultRecordMetadata.dump_bytes md)
      /\ fs w !! (resolved_storage s w, key) = Some payload
  | None =>
      fs w !! (resolved_storage s w, key)
      = Some (json_dumps (ResultRecord.to_doc md payload))
  end ->
  exists s2 w2,
    ResultStore.read key holder (s, w) = Ok (ResultRecord.mk md v) (s2, w2).
Proof.
  intros Hreg Hkey Hl Hfree Ha Hfs.
  destruct (ResultStore.metadata_storage s) as [ms|] eqn:Emeta.
  - destruct Hfs as (Ham & Hfm & Hfp).
    destruct (read_split_run s w key holder ms
                (ResultRecordMetadata.dump_bytes md) md Emeta Hfree Ham Hfm
                (metadata_roundtrip md Hreg)) as [Hread _].
    destruct (Hread key payload v Hkey Ha Hfp Hl) as (s2 & w2 & Hr & _).
    exists s2, w2. exact Hr.
  - destruct (read_combined_run s w key holder _ (ResultRecord.mk md v)
                Emeta Hfree Ha Hfs (deserialize_record_doc md payload v Hreg Hl))
      as (s2 & w2 & Hr & _).
    exists s2, w2. exact Hr.
Qed.

(** X6. The last write wins: after two writes under the same key, [read]
    returns the value of the second. *)
Theorem last_write_wins (s : ResultStore.t) (w : World) (key : string)
    (v1 v2 : value) (expiration1 expiration2 holder : option string)
    (payload1 : bytes) :
  key <> "" ->
  dumps (Serializer.type (ResultStore.serializer s)) v1 = inr payload1 ->
  supported (ResultStore.serializer s) v2 ->
  uncontended s w key holder ->
  write_fault w !! resolved_storage s w = None ->
  read_anomaly w !! (resolved_storage s w, key) = None ->
  (forall ms, ResultStore.metadata_storage s = Some ms ->
     ms <> resolved_storage s w
     /\ write_fault w !! ms = None
     /\ read_anomaly w !! (ms, key) = None) ->
  exists s1 w1 s2 w2 r s3 w3,
    ResultStore.write key v1 expiration1 holder (s, w) = Ok tt (s1, w1)
    /\ ResultStore.write key v2 expiration2 holder (s1, w1) = Ok tt (s2, w2)
    /\ ResultStore.read key holder (s2, w2) = Ok r (s3, w3)
    /\ ResultRecord.result r = v2
    /\ ResultRecord.expiration r = expiration2.
Proof.
  intros Hkey Hd1 [Hreg (payload2 & Hd2 & Hl2)] Hfree Hw Ha Hms.
  set (rs := resolved_storage s w) in *.
  destruct (write_stores s w key v1 expiration1 holder payload1 Hkey Hfree Hw)
    as (w1 & Hrun1 & Henv1 & _); [intros ms E; apply (Hms ms E)|exact Hd1|].
  set (s1 := ResultStore.set_result_storage (Some rs) s) in *.
  assert (Hfree1 : uncontended s1 w1 key holder)
    by (apply (uncontended_after s w w1); assumption).
  pose proof Henv1 as (Hl1 & Hra1 & Hwf1 & Hds1 & Hh1).
  assert (Hrs1 : resolved_storage s1 w1 = rs) by reflexivity.
  assert (Hmeta1 : ResultStore.metadata_storage s1 = ResultStore.metadata_storage s)
    by (destruct s; reflexivity).
  destruct (write_stores s1 w1 key v2 expiration2 holder payload2 Hkey Hfree1)
    as (w2 & Hrun2 & Henv2 & Hfs2).
  { rewrite Hrs1, Hwf1. exact Hw. }
  { intros ms E. rewrite Hmeta1 in E. rewrite Hwf1. apply (Hms ms E). }
  { destruct s; exact Hd2. }
  rewrite Hrs1 in *.
  set (s2 := ResultStore.set_result_storage (Some rs) s1) in *.
  pose proof Henv2 as (Hl2' & Hra2 & _).
  set (md := ResultRecord.metadata (written_record s1 w1 key v2 expiration2)) in *.
  destruct (read_stored s2 w2 key holder md payload2 v2) as (s3 & w3 & Hr).
  - destruct s; exact Hreg.
  - reflexivity.
  - destruct s; exact Hl2.
  - apply (uncontended_after s1 w1 w2); assumption.
  - change (resolved_storage s2 w2) with rs. rewrite Hra2, Hra1. exact Ha.
  - change (resolved_storage s2 w2) with rs.
    replace (ResultStore.metadata_storage s2) with (ResultStore.metadata_storage s)
      by (destruct s; reflexivity).
    rewrite Hmeta1 in Hfs2.
    destruct (ResultStore.metadata_storage s) as [ms|] eqn:Emeta.
    + destruct (Hms ms eq_refl) as (Hne & _ & Ham).
      rewrite Hfs2, Hra2, Hra1. split; [exact Ham|].
      split; [apply lookup_insert_eq|].
      rewrite lookup_insert_ne by (intros [= E]; exact (Hne E)).
      apply lookup_insert_eq.
    + rewrite Hfs2. apply lookup_insert_eq.
  - exists s1, w1, s2, w2, (ResultRecord.mk md v2), s3, w3.
    split; [exact Hrun1|]. split; [exact Hrun2|]. split; [exact Hr|].
    split; reflexivity.
Qed.

(** X7. Writes under different keys do not disturb each other: a value
    written under [key1] is still read back under [key1] after a write
    under another key [key2]. *)
Theorem write_other_key_preserves (s : ResultStore.t) (w : World)
    (key1 key2 : string) (v1 v2 : value)
    (expiration1 expiration2 holder : option string) (payload2 : bytes) :
  key1 <> "" -> key2 <> "" -> key1 <> key2 ->
  supported (ResultStore.serializer s) v1 ->
  dumps (Serializer.type (ResultStore.serializer s)) v2 = inr payload2 ->
  uncontended s w key1 holder ->
  uncontended s w key2 holder ->
  write_fault w !! resolved_storage s w = None ->
  read_anomaly w !! (resolved_storage s w, key1) = None ->
  (forall ms, ResultStore.metadata_storage s = Some ms ->
     ms <> resolved_storage s w
     /\ write_fault w !! ms = None
     /\ read_anomaly w !! (ms, key1) = None) ->
  exists s1 w1 s2 w2 r s3 w3,
    ResultStore.write key1 v1 expiration1 holder (s, w) = Ok tt (s1, w1)
    /\ ResultStore.write key2 v2 expiration2 holder (s1, w1) = Ok tt (s2, w2)
    /\ ResultStore.read key1 holder (s2, w2) = Ok r (s3, w3)
    /\ ResultRecord.result r = v1.
Proof.
  intros Hkey1 Hkey2 Hkeys [Hreg (payload1 & Hd1 & Hl1)] Hd2 Hfree1 Hfree2
    Hw Ha Hms.
  set (rs := resolved_storage s w) in *.
  destruct (write_stores s w key1 v1 expiration1 holder payload1 Hkey1 Hfree1 Hw)
    as (w1 & Hrun1 & Henv1 & Hfs1); [intros ms E; apply (Hms ms E)|exact Hd1|].
  set (s1 := ResultStore.set_result_storage (Some rs) s) in *.
  pose proof Henv1 as (Hlk1 & Hra1 & Hwf1 & Hds1 & Hh1).
  assert (Hrs1 : resolved_storage s1 w1 = rs) by reflexivity.
  assert (Hmeta1 : ResultStore.metadata_storage s1 = ResultStore.metadata_storage s)
    by (destruct s; reflexivity).
  destruct (write_stores s1 w1 key2 v2 expiration2 holder payload2 Hkey2)
    as (w2 & Hrun2 & Henv2 & Hfs2).
  { apply (uncontended_after s w w1); assumption. }
  { rewrite Hrs1, Hwf1. exact Hw. }
  { intros ms E. rewrite Hmeta1 in E. rewrite Hwf1. apply (Hms ms E). }
  { destruct s; exact Hd2. }
  rewrite Hrs1 in *.
  set (s2 := ResultStore.set_result_storage (Some rs) s1) in *.
  pose proof Henv2 as (Hlk2 & Hra2 & _).
  set (md := ResultRecord.metadata (written_record s w key1 v1 expiration1)) in *.
  destruct (read_stored s2 w2 key1 holder md payload1 v1) as (s3 & w3 & Hr).
  - exact Hreg.
  - reflexivity.
  - exact Hl1.
  - apply (uncontended_after s1 w1 w2); [assumption|].
    apply (uncontended_after s w w1); assumption.
  - change (resolved_storage s2 w2) with rs. rewrite Hra2, Hra1. exact Ha.
  - change (resolved_storage s2 w2) with rs.
    replace (ResultStore.metadata_storage s2) with (ResultStore.metadata_storage s)
      by (destruct s; reflexivity).
    rewrite Hmeta1 in Hfs2.
    destruct (ResultStore.metadata_storage s) as [ms|] eqn:Emeta.
    + destruct (Hms ms eq_refl) as (Hne & _ & Ham).
      rewrite Hfs2, Hfs1, Hra2, Hra1. split; [exact Ham|].
      split.
      * rewrite !lookup_insert_ne by congruence.
        apply lookup_insert_eq.
      * rewrite !lookup_insert_ne by congruence.
        apply lookup_insert_eq.
    + rewrite Hfs2, Hfs1.
      rewrite lookup_insert_ne by congruence.
      apply lookup_insert_eq.
  - exists s1, w1, s2, w2, (ResultRecord.mk md v1), s3, w3.
    split; [exact Hrun1|]. split; [exact Hrun2|]. split; [exact Hr|reflexivity].
Qed.

(** ** Parameters *)

(** X8. [read_parameters] returns what [store_parameters] stored under the
    same identifier. *)
Theorem parameters_roundtrip (s : ResultStore.t) (w : World) (rs : handle)
    (identifier : string) (parameters : value) :
  ResultStore.result_storage s = Some rs ->
  supported (ResultStore.serializer s) parameters ->
  write_fault w !! rs = None ->
  read_anomaly w !! (rs, "parameters/" ++ identifier) = None ->
  exists w1 w2,
    ResultStore.store_parameters identifier parameters (s, w) = Ok tt (s, w1)
    /\ ResultStore.read_parameters identifier (s, w1) = Ok parameters (s, w2).
Proof.
  intros Hrs Hsup Hw Ha.
  set (record := ResultRecord.mk
                   (ResultRecordMetadata.new (ResultStore.serializer s) None
                      (Some identifier) None) parameters).
  destruct (record_roundtrip record Hsup) as (content & Hser & Hde).
  pose proof (store_parameters_run s w rs identifier parameters content
                Hrs Hw Hser) as Hstore.
  eexists _, _. split; [exact Hstore|].
  destruct s as [rso mso lmo pr cache ser kfn]. cbn in Hrs. subst rso.
  do 2 exec. rewrite Ha, lookup_insert_eq. cbn. rewrite Hde. reflexivity.
Qed.

(** ** Errors of [read] *)

Lemma read_effective_holder (s : ResultStore.t) (w : World) (key : string)
    (holder : option string) :
  ResultStore.read key holder (s, w)
  = ResultStore._read key (effective_holder holder w) (s, w).
Proof.
  unfold ResultStore.read. unfold bind at 1, lift at 1.
  rewrite holder_or_default. reflexivity.
Qed.

(** X9. [read] does not swallow storage errors: without a metadata storage,
    whatever exception the backend raises for the key is the exception
    [read] raises; an unreadable blob raises the validation error of the
    decoder. *)
Theorem read_propagates_errors (s : ResultStore.t) (w : World) (key : string)
    (holder : option string) :
  ResultStore.metadata_storage s = None ->
  uncontended s w key holder ->
  (forall e, read_anomaly w !! (resolved_storage s w, key) = Some (Fails e) ->
     exists st, ResultStore.read key holder (s, w) = Raise e st)
  /\ (read_anomaly w !! (resolved_storage s w, key) = None ->
      fs w !! (resolved_storage s w, key) = None ->
      exists st, ResultStore.read key holder (s, w) = Raise FileNotFoundError st)
  /\ (forall content,
        read_anomaly w !! (resolved_storage s w, key) = None ->
        fs w !! (resolved_storage s w, key) = Some content ->
        json_loads content = None ->
        exists st, ResultStore.read key holder (s, w) = Raise ValidationError st).
Proof.
  intros Hms Hfree.
  destruct s as [rs mso lmo pr cache ser kfn]. cbn in Hms. subst mso.
  unfold uncontended, resolved_storage in *.
  cbn [ResultStore.lock_manager ResultStore.result_storage] in *.
  rewrite !read_effective_holder.
  split; [|split].
  - intros e Ha.
    destruct lmo as [lm|]; [destruct (Hfree lm eq_refl) as [Hl|Hl]|];
      destruct rs as [rs|].
    all: repeat (progress (exec;
           rewrite ?or_else_holder, ?effective_holder_log, ?effective_holder_idem,
             ?Hl, ?Ha;
           rewrite ?bool_decide_eq_true_2 by reflexivity;
           rewrite ?bool_decide_eq_false_2 by discriminate)).
    all: eexists; reflexivity.
  - intros Ha Hf.
    destruct lmo as [lm|]; [destruct (Hfree lm eq_refl) as [Hl|Hl]|];
      destruct rs as [rs|].
    all: repeat (progress (exec;
           rewrite ?or_else_holder, ?effective_holder_log, ?effective_holder_idem,
             ?Hl, ?Ha, ?Hf;
           rewrite ?bool_decide_eq_true_2 by reflexivity;
           rewrite ?bool_decide_eq_false_2 by discriminate)).
    all: eexists; reflexivity.
  - intros content Ha Hf Hbad.
    assert (Hde : ResultRecord.deserialize (Some content) = inl ValidationError).
    { unfold ResultRecord.deserialize, ResultRecord.model_validate_json.
      rewrite Hbad. reflexivity. }
    destruct lmo as [lm|]; [destruct (Hfree lm eq_refl) as [Hl|Hl]|];
      destruct rs as [rs|].
    all: repeat (progress (exec;
           rewrite ?or_else_holder, ?effective_holder_log, ?effective_holder_idem,
             ?Hl, ?Ha, ?Hf, ?Hde;
           rewrite ?bool_decide_eq_true_2 by reflexivity;
           rewrite ?bool_decide_eq_false_2 by discriminate)).
    all: eexists; reflexivity.
Qed.

(** ** The record layer *)

(** X10. The three encodings of a record decode to the record: the
    metadata alone, the record as one blob, and the record as a payload
    and a metadata blob. *)
Theorem record_encodings_roundtrip (r : ResultRecord.t) :
  supported (ResultRecord.serializer r) (ResultRecord.result r) ->
  ResultRecordMetadata.load_bytes
    (Some (ResultRecordMetadata.dump_bytes (ResultRecord.metadata r)))
  = inr (ResultRecord.metadata r)
  /\ (exists content,
        ResultRecord.serialize r = inr content
        /\ ResultRecord.deserialize (Some content) = inr r)
  /\ (exists payload,
        ResultRecord.serialize_result r = inr payload
        /\ ResultRecord.deserialize_from_result_and_metadata
             (Some payload) (Some (ResultRecord.serialize_metadata r))
           = inr r).
Proof.
  intros Hsup. pose proof Hsup as [Hreg (payload & Hd & Hl)].
  split; [apply metadata_roundtrip; exact Hreg|].
  split; [apply record_roundtrip; exact Hsup|].
  exists payload. destruct r as [md v]. unfold ResultRecord.serializer in *.
  cbn in *. split.
  - unfold ResultRecord.serialize_result, ResultRecord.serializer. cbn.
    rewrite Hd. reflexivity.
  - unfold ResultRecord.deserialize_from_result_and_metadata,
      ResultRecord.serialize_metadata. cbn.
    rewrite metadata_roundtrip by exact Hreg. cbn. rewrite Hl. reflexivity.
Qed.

(** X11. [deserialize] decodes the [result] of a blob only when it is a
    string: a blob whose [result] is any other JSON value (null, a number,
    a list, an object) gives a record holding that value as it is, and the
    serializer is not consulted. *)
Theorem deserialize_keeps_non_string (md : ResultRecordMetadata.t) (j : value) :
  registered (Serializer.type (ResultRecordMetadata.serializer md)) = true ->
  is_json j = true ->
  (forall s, j <> VStr s) ->
  ResultRecord.deserialize
    (Some (json_dumps (VDict [("metadata", ResultRecordMetadata.to_doc md);
                              ("result", j)])))
  = inr (ResultRecord.mk md j).
Proof.
  intros Hreg Hj Hns.
  unfold ResultRecord.deserialize, ResultRecord.model_validate_json.
  rewrite json_loads_dumps.
  2:{ cbn [is_json forallb]. rewrite metadata_doc_is_json, Hj. reflexivity. }
  unfold ResultRecord.model_validate. cbn.
  rewrite metadata_validate_doc by exact Hreg. cbn.
  destruct j; try reflexivity.
  - exfalso. exact (Hns s eq_refl).
  - discriminate Hj.
Qed.

(** X12. A blob in the legacy flat layout is still readable:
    [deserialize] decodes its [data] with the serializer named at the top
    level, keeps its [expiration] and version, and the record has no
    [storage_key]. *)
Theorem deserialize_legacy_blob (payload tag version : string)
    (expiration : option string) (v : value) :
  registered tag = true ->
  loads tag payload = inr v ->
  ResultRecord.deserialize
    (Some (json_dumps
             (VDict [("data", VStr payload);
                     ("expiration", optional_str_doc expiration);
                     ("serializer", VDict [("type", VStr tag)]);
                     ("prefect_version", VStr version)])))
  = inr (ResultRecord.mk
           (ResultRecordMetadata.mk None expiration (Serializer.mk tag)
              version None)
           v).
Proof.
  intros Hreg Hl.
  unfold ResultRecord.deserialize, ResultRecord.model_validate_json.
  rewrite json_loads_dumps by (destruct expiration; reflexivity).
  unfold ResultRecord.model_validate. cbn.
  unfold ResultRecordMetadata.validate, optional_str_field, Serializer.validate,
    Serializer.new. cbn. rewrite Hreg. cbn.
  destruct expiration; cbn; unfold ResultRecord.serializer; cbn;
    rewrite Hl; reflexivity.
Qed.

(** ** Persisted references *)

(** X13. Writing a reference that has no object, neither given nor cached,
    raises [ValueError] before any storage is looked up: the reference and
    the world are as they were. *)
Theorem reference_write_needs_object (r : PersistedResult.t) (w : World) :
  PersistedResult._persisted r = false ->
  PersistedResult.serialize_to_none r = false ->
  PersistedResult._cache r = None ->
  PersistedResult.write None (r, w) = Raise ValueError (r, w).
Proof.
  intros Hp Hn Hc.
  destruct r as [ty sty key bid exp stn cache per should sb ser].
  cbn in Hp, Hn, Hc. subst per stn cache. reflexivity.
Qed.



(** X15. Equality of references ([__eq__]) is an equivalence that looks at
    the type tag, the serializer type, the storage key, the block id and
    the expiration only: two references that agree on these are equal
    whatever their cache, their persisted flag, their resolved handles and
    their [serialize_to_none] flag. *)
Theorem reference_eq_spec (a b c : PersistedResult.t) :
  PersistedResult.eq a a = true
  /\ PersistedResult.eq a b = PersistedResult.eq b a
  /\ (PersistedResult.eq a b = true -> PersistedResult.eq b c = true ->
      PersistedResult.eq a c = true)
  /\ (PersistedResult.eq a b = true <->
      PersistedResult.type a = PersistedResult.type b
      /\ PersistedResult.serializer_type a = PersistedResult.serializer_type b
      /\ PersistedResult.storage_key a = PersistedResult.storage_key b
      /\ PersistedResult.storage_block_id a = PersistedResult.storage_block_id b
      /\ PersistedResult.expiration a = PersistedResult.expiration b).
Proof.
  assert (Hspec : forall x y,
             PersistedResult.eq x y = true <->
             PersistedResult.type x = PersistedResult.type y
             /\ PersistedResult.serializer_type x = PersistedResult.serializer_type y
             /\ PersistedResult.storage_key x = PersistedResult.storage_key y
             /\ PersistedResult.storage_block_id x = PersistedResult.storage_block_id y
             /\ PersistedResult.expiration x = PersistedResult.expiration y).
  { intros x y. unfold PersistedResult.eq.
    rewrite !andb_true_iff, !bool_decide_eq_true. tauto. }
  split; [apply Hspec; auto|].
  split.
  { destruct (PersistedResult.eq a b) eqn:E1, (PersistedResult.eq b a) eqn:E2;
      try reflexivity.
    - apply Hspec in E1. assert (PersistedResult.eq b a = true) as E
        by (apply Hspec; intuition congruence). congruence.
    - apply Hspec in E2. assert (PersistedResult.eq a b = true) as E
        by (apply Hspec; intuition congruence). congruence. }
  split; [|apply Hspec].
  intros E1 E2. apply Hspec in E1, E2. apply Hspec. intuition congruence.
Qed.

Context `{Runtime}.






(** ** Creating references *)

(** The reference [create_result] returns. *)
Lemma create_result_shape (s : ResultStore.t) (w : World) (obj : value)
    (key expiration : option string) (r : PersistedResult.t)
    (st : ResultStore.t * World) :
  ResultStore.create_result obj key expiration (s, w) = Ok r st ->
  PersistedResult.type r = "reference"
  /\ PersistedResult.serializer_type r = Serializer.type (ResultStore.serializer s)
  /\ PersistedResult.expiration r = expiration
  /\ PersistedResult.serialize_to_none r = negb (ResultStore.persist_result s)
  /\ PersistedResult._cache r = Some obj
  /\ PersistedResult._persisted r = false
  /\ PersistedResult._should_cache_object r
     = ResultStore.cache_result_in_memory s || is_None obj
  /\ PersistedResult._storage_block r = Some (resolved_storage s w)
  /\ PersistedResult._serializer r = Some (ResultStore.serializer s)
  /\ st.1 = ResultStore.set_result_storage (Some (resolved_storage s w)) s.
Proof.
  intros Hrun. destruct s as [rs mso lmo pr cache ser kfn].
  unfold resolved_storage. cbn [ResultStore.result_storage ResultStore.serializer
    ResultStore.persist_result ResultStore.cache_result_in_memory].
  repeat (progress (unfold_store; unfold_monad;
                    unfold PersistedResultModel.create, PersistedResultModel._infer_path,
                      WritableFileSystem._resolve_path, get_default_result_storage in Hrun;
                    cbn in Hrun)).
  destruct rs as [rs|]; cbn in Hrun.
  all: repeat (split_next_in Hrun; cbn in Hrun; try discriminate).
  all: injection Hrun as <- <-; cbn; repeat (split; [reflexivity|]); reflexivity.
Qed.

(** X18. A store that does not persist creates references that never
    touch storage: whatever the object and the key, the reference
    [create_result] returns serializes to the null value and its [write]
    is a no-op. A store that persists creates references that are not of
    that kind. *)
Theorem create_result_persistence_flag (s : ResultStore.t) (w : World)
    (obj : value) (key expiration : option string) (r : PersistedResult.t)
    (st : ResultStore.t * World) :
  ResultStore.create_result obj key expiration (s, w) = Ok r st ->
  (ResultStore.persist_result s = false ->
   PersistedResult.serialize_model r = VNone
   /\ forall o w', PersistedResult.write o (r, w') = Ok tt (r, w'))
  /\ (ResultStore.persist_result s = true ->
      PersistedResult.serialize_model r = PersistedResult.handler r
      /\ PersistedResult.serialize_model r <> VNone).
Proof.
  intros Hrun.
  destruct (create_result_shape s w obj key expiration r st Hrun)
    as (_ & _ & _ & Hflag & _).
  split; intros Hp; rewrite Hp in Hflag; cbn in Hflag.
  - split.
    + unfold PersistedResult.serialize_model. rewrite Hflag. reflexivity.
    + intros o w'. apply reference_write_noop. right. exact Hflag.
  - unfold PersistedResult.serialize_model. rewrite Hflag.
    split; [reflexivity|discriminate].
Qed.

(** X19. The reference [create_result] returns always holds the object in
    its cache, is not yet persisted, and carries the store's serializer
    and storage block, which is the default storage, resolved and kept on
    the store, when the store had none; it is marked for caching when the
    store caches in memory or the object is [None]. *)
Theorem create_result_reference (s : ResultStore.t) (w : World) (obj : value)
    (key expiration : option string) (r : PersistedResult.t)
    (st : ResultStore.t * World) :
  ResultStore.create_result obj key expiration (s, w) = Ok r st ->
  PersistedResult._cache r = Some obj
  /\ PersistedResult._persisted r = false
  /\ PersistedResult._should_cache_object r
     = ResultStore.cache_result_in_memory s || is_None obj
  /\ PersistedResult.serializer_type r = Serializer.type (ResultStore.serializer s)
  /\ PersistedResult._serializer r = Some (ResultStore.serializer s)
  /\ PersistedResult._storage_block r = Some (resolved_storage s w)
  /\ ResultStore.result_storage st.1 = Some (resolved_storage s w)
  /\ PersistedResult.expiration r = expiration.
Proof.
  intros Hrun.
  destruct (create_result_shape s w obj key expiration r st Hrun)
    as (_ & Hst & Hexp & _ & Hc & Hp & Hsh & Hsb & Hser & Hstore).
  rewrite Hstore. destruct s; cbn. auto 10.
Qed.

(** [create_result] with a key that is given. *)
Lemma create_result_run (s : ResultStore.t) (w : World) (obj : value)
    (k : string) (expiration : option string) :
  k <> "" ->
  let w0 := match ResultStore.result_storage s with
            | Some _ => w
            | None => log EvDefaultStorage w
            end in
  exists r,
    ResultStore.create_result obj (Some k) expiration (s, w)
    = Ok r (ResultStore.set_result_storage (Some (resolved_storage s w)) s, w0)
    /\ PersistedResult.storage_key r = reference_key w (resolved_storage s w) k
    /\ PersistedResult.storage_block_id r
       = block_document_id w !! resolved_storage s w.
Proof.
  intros Hk w0. subst w0. apply String.eqb_neq in Hk.
  destruct s as [rs mso lmo pr cache ser kfn].
  unfold resolved_storage, reference_key.
  cbn [ResultStore.result_storage].
  destruct rs as [rs|].
  all: repeat (progress (unfold_store; unfold_monad;
                 unfold PersistedResultModel.create, PersistedResultModel._infer_path,
                   WritableFileSystem._resolve_path, get_default_result_storage;
                 cbn; rewrite ?Hk)).
  all: eexists; split; [reflexivity|]; cbn.
  - destruct (block_document_id w !! rs), (basepath w !! rs); split; reflexivity.
  - destruct (block_document_id w !! default_storage w),
      (basepath w !! default_storage w); split; reflexivity.
Qed.

(** X20. A key given to [create_result] is used as it is: the store's
    [storage_key_fn] is not called (the world only changes by the
    resolution of the default storage, when the store has none), and the
    reference points to the given key, or to the path the storage block
    resolves it to when the block has no document id. *)
Theorem create_result_given_key (s : ResultStore.t) (w : World) (obj : value)
    (k : string) (expiration : option string) :
  k <> "" ->
  let w0 := match ResultStore.result_storage s with
            | Some _ => w
            | None => log EvDefaultStorage w
            end in
  exists r,
    ResultStore.create_result obj (Some k) expiration (s, w)
    = Ok r (ResultStore.set_result_storage (Some (resolved_storage s w)) s, w0)
    /\ PersistedResult.storage_key r = reference_key w (resolved_storage s w) k
    /\ PersistedResult.storage_block_id r
       = block_document_id w !! resolved_storage s w.
Proof. apply create_result_run. Qed.



(** ** Specializing a store for a flow or a task *)

Ltac unfold_update :=
  unfold ResultStore.update_for_flow, ResultStore.update_for_task,
    ResultStore.model_copy, results.resolve_result_storage, Block_load,
    resolve_serializer, get_default_result_storage, ResultStore.self in *.

(** X22. [update_for_flow] returns a new store and leaves the store it is
    called on as it was. The new store always has a result storage; it
    takes the flow's settings that are given and inherits the others, and
    it keeps the metadata storage, the lock manager and the key function
    of the store. *)
Theorem update_for_flow_spec (s s' : ResultStore.t) (w : World) (flow : Flow.t)
    (st : ResultStore.t * World) :
  ResultStore.update_for_flow flow (s, w) = Ok s' st ->
  st.1 = s
  /\ ResultStore.result_storage s' <> None
  /\ ResultStore.metadata_storage s' = ResultStore.metadata_storage s
  /\ ResultStore.lock_manager s' = ResultStore.lock_manager s
  /\ ResultStore.storage_key_fn s' = ResultStore.storage_key_fn s
  /\ ResultStore.persist_result s'
     = default (ResultStore.persist_result s) (Flow.persist_result flow)
  /\ ResultStore.cache_result_in_memory s'
     = default (ResultStore.cache_result_in_memory s)
         (Flow.cache_result_in_memory flow)
  /\ (Flow.result_serializer flow = None ->
      ResultStore.serializer s' = ResultStore.serializer s)
  /\ (forall ser, Flow.result_serializer flow = Some (inl ser) ->
      ResultStore.serializer s' = ser)
  /\ (forall h, Flow.result_storage flow = Some (inl h) ->
      ResultStore.result_storage s' = Some h)
  /\ (Flow.result_storage flow = None ->
      ResultStore.result_storage s' = Some (resolved_storage s w)).
Proof.
  intros Hrun. destruct s as [rs mso lmo pr cache ser kfn].
  destruct flow as [frs fser fpr fcache].
  unfold resolved_storage.
  cbn [Flow.result_storage Flow.result_serializer Flow.persist_result
       Flow.cache_result_in_memory ResultStore.result_storage
       ResultStore.metadata_storage ResultStore.lock_manager
       ResultStore.storage_key_fn ResultStore.persist_result
       ResultStore.cache_result_in_memory ResultStore.serializer].
  repeat (progress (unfold_update; unfold_monad; cbn in Hrun)).
  repeat (split_next_in Hrun; cbn in Hrun; try discriminate).
  all: injection Hrun as <- <-; cbn.
  all: repeat match goal with |- _ /\ _ => split end.
  all: try reflexivity; try discriminate; try congruence.
  all: intros; congruence.
Qed.

(** X23. [update_for_task] does the same for a task, and replaces the key
    function exactly when the task names a storage key: the new key
    function formats that template, otherwise the store's is kept. *)
Theorem update_for_task_spec (s s' : ResultStore.t) (w : World) (task : Task.t)
    (st : ResultStore.t * World) :
  ResultStore.update_for_task task (s, w) = Ok s' st ->
  st.1 = s
  /\ ResultStore.result_storage s' <> None
  /\ ResultStore.metadata_storage s' = ResultStore.metadata_storage s
  /\ ResultStore.lock_manager s' = ResultStore.lock_manager s
  /\ ResultStore.storage_key_fn s'
     = match Task.result_storage_key task with
       | Some template => _format_user_supplied_storage_key template
       | None => ResultStore.storage_key_fn s
       end
  /\ ResultStore.persist_result s'
     = default (ResultStore.persist_result s) (Task.persist_result task)
  /\ ResultStore.cache_result_in_memory s'
     = default (ResultStore.cache_result_in_memory s)
         (Task.cache_result_in_memory task)
  /\ (Task.result_serializer task = None ->
      ResultStore.serializer s' = ResultStore.serializer s)
  /\ (forall h, Task.result_storage task = Some (inl h) ->
      ResultStore.result_storage s' = Some h)
  /\ (Task.result_storage task = None ->
      ResultStore.result_storage s' = Some (resolved_storage s w)).
Proof.
  intros Hrun. destruct s as [rs mso lmo pr cache ser kfn].
  destruct task as [trs tser tpr tcache tkey].
  unfold resolved_storage.
  cbn [Task.result_storage Task.result_serializer Task.persist_result
       Task.cache_result_in_memory Task.result_storage_key
       ResultStore.result_storage
       ResultStore.metadata_storage ResultStore.lock_manager
       ResultStore.storage_key_fn ResultStore.persist_result
       ResultStore.cache_result_in_memory ResultStore.serializer].
  repeat (progress (unfold_update; unfold_monad; cbn in Hrun)).
  repeat (split_next_in Hrun; cbn in Hrun; try discriminate).
  all: injection Hrun as <- <-; cbn.
  all: repeat match goal with |- _ /\ _ => split end.
  all: try reflexivity; try discriminate; try congruence.
  all: intros; congruence.
Qed.

(** X24. A flow or a task that sets nothing leaves a configured store as
    it is: the update returns the same store, with no call to the outside;
    on a store without storage, it only fills in the default storage. *)
Theorem update_with_nothing_set (s : ResultStore.t) (w : World) :
  (ResultStore.result_storage s <> None ->
   ResultStore.update_for_flow (Flow.mk None None None None) (s, w) = Ok s (s, w)
   /\ ResultStore.update_for_task (Task.mk None None None None None) (s, w)
      = Ok s (s, w))
  /\ (ResultStore.result_storage s = None ->
      ResultStore.update_for_flow (Flow.mk None None None None) (s, w)
      = Ok (ResultStore.set_result_storage (Some (default_storage w)) s)
           (s, log EvDefaultStorage w)
      /\ ResultStore.update_for_task (Task.mk None None None None None) (s, w)
         = Ok (ResultStore.set_result_storage (Some (default_storage w)) s)
              (s, log EvDefaultStorage w)).
Proof.
  destruct s as [[rs|] mso lmo pr cache ser kfn]; cbn; split; intros Hrs;
    try congruence; split; reflexivity.
Qed.

(** X25. With a metadata storage, [exists] looks at the metadata only:
    when the metadata of a key is stored but the payload it points to is
    gone, [exists] answers true, with one read of the metadata storage,
    and [read] of the same key raises [FileNotFoundError]. *)
Theorem exists_ignores_missing_payload (s : ResultStore.t) (w : World)
    (key : string) (holder : option string) (ms : handle)
    (metadata_content : bytes) (metadata : ResultRecordMetadata.t)
    (storage_key : string) :
  ResultStore.metadata_storage s = Some ms ->
  uncontended s w key holder ->
  read_anomaly w !! (ms, key) = None ->
  fs w !! (ms, key) = Some metadata_content ->
  ResultRecordMetadata.load_bytes (Some metadata_content) = inr metadata ->
  ResultRecordMetadata.storage_key metadata = Some storage_key ->
  read_anomaly w !! (resolved_storage s w, storage_key) = None ->
  fs w !! (resolved_storage s w, storage_key) = None ->
  ResultStore.exists_ key (s, w) = Ok true (s, log (EvRead ms key) w)
  /\ exists st, ResultStore.read key holder (s, w) = Raise FileNotFoundError st.
Proof.
  intros Hms Hfree Ha Hf Hload Hkey Ha' Hf'.
  destruct s as [rs mso lmo pr cache ser kfn]. cbn in Hms. subst mso.
  unfold uncontended, resolved_storage in *.
  cbn [ResultStore.lock_manager ResultStore.result_storage] in *.
  split.
  - do 2 exec. rewrite Ha, Hf. cbn. reflexivity.
  - rewrite read_effective_holder.
    destruct lmo as [lm|]; [destruct (Hfree lm eq_refl) as [Hl|Hl]|];
      destruct rs as [rs|].
    all: repeat (progress (exec;
           rewrite ?or_else_holder, ?effective_holder_log, ?effective_holder_idem,
             ?Hl, ?Ha, ?Hf, ?Hload, ?Hkey, ?Ha', ?Hf';
           rewrite ?bool_decide_eq_true_2 by reflexivity;
           rewrite ?bool_decide_eq_false_2 by discriminate)).
    all: eexists; reflexivity.
Qed.

End Properties.

(** * A reference installation

    A wire codec, a serializer registry and settings that satisfy the
    interfaces above: a compact prefix encoding of documents, a serializer
    tagged [json] built on it, and a pickle tag that only handles strings.
    They show that the assumptions of the properties can be met, and give
    the concrete runs below something to run on. *)
Module ReferenceCodec.

Fixpoint enc_nat (n : nat) : string :=
  match n with
  | 0 => "0"
  | S n => String "1"%char (enc_nat n)
  end.

Fixpoint dec_nat (s : string) : option (nat * string) :=
  match s with
  | EmptyString => None
  | String c r =>
      if Ascii.eqb c "0"%char then Some (0, r)
      else if Ascii.eqb c "1"%char then
        match dec_nat r with
        | Some (n, r') => Some (S n, r')
        | None => None
        end
      else None
  end.

Fixpoint split_at (n : nat) (s : string) : option (string * string) :=
  match n with
  | 0 => Some ("", s)
  | S n =>
      match s with
      | EmptyString => None
      | String c r =>
          match split_at n r with
          | Some (a, b) => Some (String c a, b)
          | None => None
          end
      end
  end.

Definition enc_str (s : string) : string :=
  enc_nat (String.length s) ++ s.

Definition dec_str (s : string) : option (string * string) :=
  match dec_nat s with
  | Some (n, r) => split_at n r
  | None => None
  end.

Definition enc_Z (z : Z) : string :=
  String (if (z <? 0)%Z then "-" else "+")%char (enc_nat (Z.abs_nat z)).

Definition dec_Z (s : string) : option (Z * string) :=
  match s with
  | EmptyString => None
  | String c r =>
      match dec_nat r with
      | Some (n, r') =>
          if Ascii.eqb c "-"%char then Some ((- Z.of_nat n)%Z, r')
          else if Ascii.eqb c "+"%char then Some (Z.of_nat n, r')
          else None
      | None => None
      end
  end.

Fixpoint enc (v : value) : string :=
  match v with
  | VNone => "n"
  | VBool true => "t"
  | VBool false => "f"
  | VInt z => String "i"%char (enc_Z z)
  | VStr s => String "s"%char (enc_str s)
  | VBytes b => String "b"%char (enc_str b)
  | VList l =>
      String "l"%char (enc_nat (length l)
                  ++ (fix go (l : list value) : string :=
                        match l with
                        | [] => ""
                        | x :: l' => enc x ++ go l'
                        end) l)
  | VDict d =>
      String "d"%char (enc_nat (length d)
                  ++ (fix go (d : list (string * value)) : string :=
                        match d with
                        | [] => ""
                        | (k, x) :: d' => enc_str k ++ enc x ++ go d'
                        end) d)
  end.

Fixpoint dec_seq {A} (f : string -> option (A * string)) (n : nat) (s : string)
  : option (list A * string) :=
  match n with
  | 0 => Some ([], s)
  | S n =>
      match f s with
      | Some (a, r) =>
          match dec_seq f n r with
          | Some (l, r') => Some (a :: l, r')
          | None => None
          end
      | None => None
      end
  end.

Fixpoint dec (fuel : nat) (s : string) : option (value * string) :=
  match fuel with
  | 0 => None
  | S fuel =>
      match s with
      | EmptyString => None
      | String c r =>
          if Ascii.eqb c "n"%char then Some (VNone, r)
          else if Ascii.eqb c "t"%char then Some (VBool true, r)
          else if Ascii.eqb c "f"%char then Some (VBool false, r)
          else if Ascii.eqb c "i"%char then
            match dec_Z r with
            | Some (z, r') => Some (VInt z, r')
            | None => None
            end
          else if Ascii.eqb c "s"%char then
            match dec_str r with
            | Some (x, r') => Some (VStr x, r')
            | None => None
            end
          else if Ascii.eqb c "b"%char then
            match dec_str r with
            | Some (x, r') => Some (VBytes x, r')
            | None => None
            end
          else if Ascii.eqb c "l"%char then
            match dec_nat r with
            | Some (n, r1) =>
                match dec_seq (dec fuel) n r1 with
                | Some (l, r2) => Some (VList l, r2)
                | None => None
                end
            | None => None
            end
          else if Ascii.eqb c "d"%char then
            match dec_nat r with
            | Some (n, r1) =>
                match dec_seq
                        (fun s =>
                           match dec_str s with
                           | Some (k, s') =>
                               match dec fuel s' with
                               | Some (x, s'') => Some ((k, x), s'')
                               | None => None
                               end
                           | None => None
                           end) n r1 with
                | Some (d, r2) => Some (VDict d, r2)
                | None => None
                end
            | None => None
            end
          else None
      end
  end.

Definition dumps_doc (v : value) : bytes := enc v.

Definition loads_doc (b : bytes) : option value :=
  match dec (S (String.length b)) b with
  | Some (v, EmptyString) => Some v
  | _ => None
  end.

End ReferenceCodec.

(** ** The reference codec decodes what it encodes *)

Lemma string_app_cons (c : ascii) (s r : string) :
  String c s ++ r = String c (s ++ r).
Proof. reflexivity. Qed.

Lemma string_app_nil_l (r : string) : "" ++ r = r.
Proof. reflexivity. Qed.

Lemma string_app_nil_r (s : string) : s ++ "" = s.
Proof.
  induction s as [|c s IH]; [reflexivity|].
  rewrite string_app_cons, IH. reflexivity.
Qed.

Lemma string_app_assoc (a b c : string) : (a ++ b) ++ c = a ++ (b ++ c).
Proof.
  induction a as [|x a IH]; [reflexivity|].
  rewrite !string_app_cons, IH. reflexivity.
Qed.

Module ReferenceCodecFacts.
Import ReferenceCodec.

Definition enc_items (l : list value) : string :=
  foldr (fun x acc => enc x ++ acc) "" l.

Definition enc_pairs (d : list (string * value)) : string :=
  foldr (fun p acc => match p with (k, x) => enc_str k ++ enc x ++ acc end) "" d.

Lemma enc_VList (l : list value) :
  enc (VList l) = String "l" (enc_nat (length l) ++ enc_items l).
Proof.
  reflexivity.
Qed.

Lemma enc_VDict (d : list (string * value)) :
  enc (VDict d) = String "d" (enc_nat (length d) ++ enc_pairs d).
Proof.
  reflexivity.
Qed.

Lemma dec_enc_nat (n : nat) (r : string) :
  dec_nat (enc_nat n ++ r) = Some (n, r).
Proof.
  induction n as [|n IH]; [reflexivity|].
  cbn [enc_nat]. rewrite string_app_cons. cbn. rewrite IH. reflexivity.
Qed.

Lemma split_at_app (s r : string) :
  split_at (String.length s) (s ++ r) = Some (s, r).
Proof.
  induction s as [|c s IH]; [reflexivity|].
  rewrite string_app_cons. cbn. rewrite IH. reflexivity.
Qed.

Lemma dec_enc_str (s r : string) : dec_str (enc_str s ++ r) = Some (s, r).
Proof.
  unfold dec_str, enc_str. rewrite string_app_assoc, dec_enc_nat.
  apply split_at_app.
Qed.

Lemma dec_enc_Z (z : Z) (r : string) : dec_Z (enc_Z z ++ r) = Some (z, r).
Proof.
  unfold dec_Z, enc_Z. rewrite string_app_cons, dec_enc_nat.
  destruct (z <? 0)%Z eqn:E; cbn; do 2 f_equal.
  - apply Z.ltb_lt in E. lia.
  - apply Z.ltb_ge in E. lia.
Qed.

Lemma enc_nonempty (v : value) : 1 <= String.length (enc v).
Proof. destruct v as [|[]| | | | |]; cbn; lia. Qed.

Lemma enc_items_length (x : value) (l : list value) :
  In x l -> String.length (enc x) <= String.length (enc_items l).
Proof.
  induction l as [|y l IH]; [intros []|].
  cbn [enc_items foldr]. rewrite string_length_app.
  intros [->|Hin]; [lia|]. specialize (IH Hin). fold (enc_items l). lia.
Qed.

Lemma enc_pairs_length (k : string) (x : value) (d : list (string * value)) :
  In (k, x) d -> String.length (enc x) <= String.length (enc_pairs d).
Proof.
  induction d as [|[k' y] d IH]; [intros []|].
  cbn [enc_pairs foldr]. rewrite !string_length_app.
  intros [[= -> ->]|Hin]; [lia|]. specialize (IH Hin). fold (enc_pairs d). lia.
Qed.

Lemma dec_enc (fuel : nat) :
  forall (v : value) (r : string),
    String.length (enc v) <= fuel -> dec fuel (enc v ++ r) = Some (v, r).
Proof.
  induction fuel as [|fuel IH]; intros v r Hlen.
  { pose proof (enc_nonempty v). lia. }
  destruct v as [|[]|z|s|b|l|d].
  - reflexivity.
  - reflexivity.
  - reflexivity.
  - cbn [enc]. rewrite string_app_cons. cbn. rewrite dec_enc_Z. reflexivity.
  - cbn [enc]. rewrite string_app_cons. cbn. rewrite dec_enc_str. reflexivity.
  - cbn [enc]. rewrite string_app_cons. cbn. rewrite dec_enc_str. reflexivity.
  - rewrite enc_VList in *. rewrite string_app_cons, string_app_assoc.
    cbn in Hlen. rewrite string_length_app in Hlen. cbn.
    rewrite dec_enc_nat.
    assert (Hseq : forall l' r',
               (forall x, In x l' -> String.length (enc x) <= fuel) ->
               dec_seq (dec fuel) (length l') (enc_items l' ++ r') = Some (l', r')).
    { induction l' as [|x l' IHl]; intros r' Hall; [reflexivity|].
      cbn [enc_items foldr length dec_seq]. fold (enc_items l').
      rewrite string_app_assoc, IH by (apply Hall; left; reflexivity).
      rewrite IHl by (intros y Hy; apply Hall; right; exact Hy). reflexivity. }
    rewrite Hseq; [reflexivity|].
    intros x Hx. pose proof (enc_items_length x l Hx). lia.
  - rewrite enc_VDict in *. rewrite string_app_cons, string_app_assoc.
    cbn in Hlen. rewrite string_length_app in Hlen. cbn.
    rewrite dec_enc_nat.
    assert (Hseq : forall d' r',
               (forall k x, In (k, x) d' -> String.length (enc x) <= fuel) ->
               dec_seq
                 (fun s =>
                    match dec_str s with
                    | Some (k, s') =>
                        match dec fuel s' with
                        | Some (x, s'') => Some ((k, x), s'')
                        | None => None
                        end
                    | None => None
                    end) (length d') (enc_pairs d' ++ r') = Some (d', r')).
    { induction d' as [|[k x] d' IHd]; intros r' Hall; [reflexivity|].
      cbn [enc_pairs foldr length dec_seq]. fold (enc_pairs d').
      rewrite !string_app_assoc, dec_enc_str.
      rewrite IH by (apply (Hall k); left; reflexivity).
      rewrite IHd by (intros k' y Hy; apply (Hall k'); right; exact Hy).
      reflexivity. }
    rewrite Hseq; [reflexivity|].
    intros k x Hx. pose proof (enc_pairs_length k x d Hx). lia.
Qed.

Lemma loads_dumps_doc (v : value) : loads_doc (dumps_doc v) = Some v.
Proof.
  unfold loads_doc, dumps_doc.
  rewrite <- (string_app_nil_r (enc v)) at 2.
  rewrite dec_enc by lia. reflexivity.
Qed.

End ReferenceCodecFacts.

Module Reference.
Import ReferenceCodec.

#[export] Instance codec : JsonCodec :=
  {| json_dumps := dumps_doc; json_loads := loads_doc |}.

(** The tag [json] encodes any value with the codec; the tag [pickle]
    only takes strings, as they are. *)
#[export] Instance serializers : Serializers :=
  {| registered tag := String.eqb tag "json" || String.eqb tag "pickle";
     dumps tag v :=
       if String.eqb tag "json" then inr (dumps_doc v)
       else if String.eqb tag "pickle" then
         match v with
         | VStr s => inr s
         | _ => inl TypeError
         end
       else inl ValueError;
     loads tag b :=
       if String.eqb tag "json" then
         match loads_doc b with
         | Some v => inr v
         | None => inl ValueError
         end
       else if String.eqb tag "pickle" then inr (VStr b)
       else inl ValueError |}.

#[export] Instance settings : Settings :=
  {| __version__ := "3.0.0"; PREFECT_RESULTS_PERSIST_BY_DEFAULT := false |}.

(** A fresh world: empty backends, no locks, backend 0 as the default
    storage. *)
Definition world : World :=
  {| fs := ∅; read_anomaly := ∅; write_fault := ∅; locks := ∅;
     default_storage := 0; block_document_id := ∅; block_documents := ∅;
     basepath := ∅; uuid_pool := fun n => "key-" ++ enc_nat n; uuid_next := 0;
     hostname := "host"; pid := "4242"; thread_id := "1";
     thread_name := "MainThread"; trace := [] |}.

(** A store over backend 0 with the [json] serializer. *)
Definition store : ResultStore.t :=
  {| ResultStore.result_storage := Some 0;
     ResultStore.metadata_storage := None;
     ResultStore.lock_manager := None;
     ResultStore.persist_result := true;
     ResultStore.cache_result_in_memory := true;
     ResultStore.serializer := Serializer.mk "json";
     ResultStore.storage_key_fn := DEFAULT_STORAGE_KEY_FN |}.

(** The value of the scenario of the specification: [{"a": 1}]. *)
Definition sample : value := VDict [("a", VInt 1)].

End Reference.

(** * Concrete runs on the reference installation *)
Module Runs.
Import Reference.

(** Split a conjunction into its parts, and nothing else. *)
Ltac conjuncts := repeat match goal with |- _ /\ _ => split end.

#[local] Instance codec_lawful : JsonCodecLawful codec.
Proof. intros j _. apply ReferenceCodecFacts.loads_dumps_doc. Qed.

(** The scenario of the specification: on a fresh store, ["k"] does not
    exist; after [write("k", {"a": 1})] it exists and reads back. *)
Example fresh_store_scenario :
  exists s1 w1 s2 w2 r s3 w3,
    ResultStore.exists_ "k" (store, world) = Ok false (store, log (EvRead 0 "k") world)
    /\ ResultStore.write "k" sample None None (store, world) = Ok tt (s1, w1)
    /\ ResultStore.exists_ "k" (s1, w1) = Ok true (s2, w2)
    /\ ResultStore.read "k" None (s2, w2) = Ok r (s3, w3)
    /\ ResultRecord.result r = sample.
Proof.
  do 7 eexists. conjuncts; vm_compute; reflexivity.
Qed.

(** Witness of C1 (as amended): the key ["k"] and the value [{"a": 1}] on
    the fresh store. *)
Lemma write_read_roundtrip_witness :
  "k" <> ""
  /\ supported store.(ResultStore.serializer) sample
  /\ exists s1 w1 r s2 w2,
       ResultStore.write "k" sample None None (store, world) = Ok tt (s1, w1)
       /\ ResultStore.read "k" None (s1, w1) = Ok r (s2, w2)
       /\ ResultRecord.result r = sample.
Proof.
  assert (Hsup : supported store.(ResultStore.serializer) sample).
  { split; [reflexivity|]. eexists. split; vm_compute; reflexivity. }
  split; [discriminate|]. split; [exact Hsup|].
  apply (write_read_roundtrip store world "k" sample None None).
  - discriminate.
  - exact Hsup.
  - intros lm E. discriminate E.
  - reflexivity.
  - reflexivity.
  - intros ms E. discriminate E.
Defined.

(** Counterexample to C1 as stated: with the empty key, [write] stores the
    record under the minted key ["key-0"], and [read] of the empty key
    finds nothing. *)
Lemma write_read_empty_key_counterexample :
  supported store.(ResultStore.serializer) sample
  /\ (exists s1 w1 st,
        ResultStore.write "" sample None None (store, world) = Ok tt (s1, w1)
        /\ is_Some (fs w1 !! (0, "key-0"))
        /\ fs w1 !! (0, "") = None
        /\ ResultStore.read "" None (s1, w1) = Raise FileNotFoundError st)
  /\ ~ exists s1 w1 r s2 w2,
         ResultStore.write "" sample None None (store, world) = Ok tt (s1, w1)
         /\ ResultStore.read "" None (s1, w1) = Ok r (s2, w2)
         /\ ResultRecord.result r = sample.
Proof.
  split.
  { split; [reflexivity|]. eexists. split; vm_compute; reflexivity. }
  split.
  { do 3 eexists. split; [vm_compute; reflexivity|].
    split; [vm_compute; eauto|]. split; vm_compute; reflexivity. }
  intros (s1 & w1 & r & s2 & w2 & Hw & Hr & _).
  vm_compute in Hw. injection Hw as <- <-.
  vm_compute in Hr. discriminate Hr.
Qed.

(** Witness of C2: a reference built on the fresh world, written twice. *)
Definition reference : PersistedResult.t :=
  {| PersistedResult.type := "reference";
     PersistedResult.serializer_type := "json";
     PersistedResult.storage_key := "k";
     PersistedResult.storage_block_id := None;
     PersistedResult.expiration := None;
     PersistedResult.serialize_to_none := false;
     PersistedResult._cache := Some sample;
     PersistedResult._persisted := false;
     PersistedResult._should_cache_object := true;
     PersistedResult._storage_block := Some 0;
     PersistedResult._serializer := Some (Serializer.mk "json") |}.

Definition reference_written : PersistedResult.t * World :=
  match PersistedResult.write None (reference, world) with
  | Ok _ st => st
  | _ => (reference, world)
  end.

Lemma reference_write_idempotent_witness :
  PersistedResult.write None (reference, world) = Ok tt reference_written
  /\ count_writes (trace reference_written.2) = 1
  /\ PersistedResult.write None reference_written = Ok tt reference_written.
Proof.
  assert (Hrun : PersistedResult.write None (reference, world)
                 = Ok tt (reference_written.1, reference_written.2))
    by (vm_compute; reflexivity).
  destruct (reference_write_idempotent reference reference_written.1
              world reference_written.2 None None eq_refl eq_refl Hrun)
    as (Hcount & Hagain & _).
  split; [exact Hrun|]. split; [exact Hcount|exact Hagain].
Defined.

(** Witness of C5: the same reference with persistence disabled. *)
Definition disabled_reference : PersistedResult.t :=
  {| PersistedResult.type := "reference";
     PersistedResult.serializer_type := "json";
     PersistedResult.storage_key := "k";
     PersistedResult.storage_block_id := None;
     PersistedResult.expiration := None;
     PersistedResult.serialize_to_none := true;
     PersistedResult._cache := Some sample;
     PersistedResult._persisted := false;
     PersistedResult._should_cache_object := true;
     PersistedResult._storage_block := Some 0;
     PersistedResult._serializer := Some (Serializer.mk "json") |}.

Lemma serialize_to_none_shape_witness :
  PersistedResult.serialize_model disabled_reference = VNone
  /\ PersistedResult.write None (disabled_reference, world)
     = Ok tt (disabled_reference, world).
Proof.
  destruct (serialize_to_none_shape disabled_reference eq_refl)
    as (Hnull & _ & Hnoop).
  split; [exact Hnull|apply Hnoop].
Defined.

(** Witness of C3, and the lock scenario of the specification: ["h1"]
    holds the lock of ["k"], ["h2"] writes. *)
Definition locked_store : ResultStore.t :=
  {| ResultStore.result_storage := Some 0;
     ResultStore.metadata_storage := None;
     ResultStore.lock_manager := Some 7;
     ResultStore.persist_result := true;
     ResultStore.cache_result_in_memory := true;
     ResultStore.serializer := Serializer.mk "json";
     ResultStore.storage_key_fn := DEFAULT_STORAGE_KEY_FN |}.

Definition locked_world : World :=
  set_locks {[ (7, "k") := "h1" ]} world.

Definition five_record : ResultRecord.t :=
  ResultRecord.mk
    (ResultRecordMetadata.new (Serializer.mk "json") None (Some "k") None)
    (VInt 5).

Lemma persist_locked_by_other_witness :
  locks locked_world !! (7, "k") = Some "h1"
  /\ ResultStore._persist_result_record five_record "h2"
       (locked_store, locked_world)
     = Raise RuntimeError
         (locked_store,
          log (EvIsLockHolder 7 "k" "h2") (log (EvIsLocked 7 "k") locked_world)).
Proof.
  split; [reflexivity|].
  refine (proj1 (persist_locked_by_other locked_store locked_world 7 "k" "h1"
                   "h2" five_record eq_refl eq_refl eq_refl _)).
  intros E. vm_compute in E. discriminate E.
Defined.

(** The state a run ends in. *)
Definition final {S A} (r : Res S A) (otherwise : S) : S :=
  match r with
  | Ok _ st | Raise _ st => st
  | Hang => otherwise
  end.

Definition h1_acquired : ResultStore.t * World :=
  final (ResultStore.acquire_lock "k" (Some "h1") None (locked_store, world))
    (locked_store, world).

Definition h2_refused : ResultStore.t * World :=
  final (ResultStore.write "k" (VInt 5) None (Some "h2") h1_acquired) h1_acquired.

Definition h1_released : ResultStore.t * World :=
  final (ResultStore.release_lock "k" (Some "h1") h2_refused) h2_refused.

Definition h2_written : ResultStore.t * World :=
  final (ResultStore.write "k" (VInt 5) None (Some "h2") h1_released) h1_released.

Example lock_exclusion_scenario :
  ResultStore.acquire_lock "k" (Some "h1") None (locked_store, world)
  = Ok true h1_acquired
  /\ ResultStore.write "k" (VInt 5) None (Some "h2") h1_acquired
     = Raise RuntimeError h2_refused
  /\ fs h2_refused.2 = fs world
  /\ ResultStore.release_lock "k" (Some "h1") h2_refused = Ok tt h1_released
  /\ ResultStore.write "k" (VInt 5) None (Some "h2") h1_released
     = Ok tt h2_written
  /\ is_Some (fs h2_written.2 !! (0, "k"))
  /\ exists st,
       ResultStore.acquire_lock "k" (Some "h2") None h2_written = Ok true st.
Proof.
  conjuncts; try (vm_compute; reflexivity).
  - vm_compute. eauto.
  - eexists. vm_compute. reflexivity.
Qed.

(** Witness of C6: the metadata of ["k"] lives on backend 1 and points to
    the payload stored on backend 0 under another key. *)
Definition split_store : ResultStore.t :=
  {| ResultStore.result_storage := Some 0;
     ResultStore.metadata_storage := Some 1;
     ResultStore.lock_manager := None;
     ResultStore.persist_result := true;
     ResultStore.cache_result_in_memory := true;
     ResultStore.serializer := Serializer.mk "pickle";
     ResultStore.storage_key_fn := DEFAULT_STORAGE_KEY_FN |}.

Definition elsewhere_metadata : ResultRecordMetadata.t :=
  ResultRecordMetadata.new (Serializer.mk "json") None (Some "elsewhere") None.



(** Counterexample to C7 as stated: the blob under ["k"] is not a
    record ([read] fails to decode it), and [exists] answers true. *)
Definition corrupt_world : World :=
  set_fs {[ (0, "k") := "garbage" ]} world.

Lemma exists_corrupt_record_counterexample :
  ResultRecord.deserialize (Some "garbage") = inl ValidationError
  /\ ResultStore.read "k" None (store, corrupt_world)
     = Raise ValidationError (store, log (EvRead 0 "k") corrupt_world)
  /\ ResultStore.exists_ "k" (store, corrupt_world)
     = Ok true (store, log (EvRead 0 "k") corrupt_world).
Proof.
  conjuncts; vm_compute; reflexivity.
Qed.

(** Witness of C8 (as amended): a record in the legacy flat layout. *)
Definition legacy_doc : list (string * value) :=
  [("data", VStr "payload");
   ("expiration", VNone);
   ("serializer", VDict [("type", VStr "json")]);
   ("prefect_version", VStr "2.19.0")].

Definition nested_doc : list (string * value) :=
  [("result", VStr "payload");
   ("metadata", VDict [("expiration", VNone);
                       ("serializer", VDict [("type", VStr "json")]);
                       ("prefect_version", VStr "2.19.0")])].

Lemma coerce_old_format_migrates_witness :
  metadata_well_formed legacy_doc
  /\ ResultRecord.coerce_old_format (VDict legacy_doc) = inr (VDict nested_doc)
  /\ ResultRecord.coerce_old_format (VDict nested_doc) = inr (VDict nested_doc)
  /\ ResultRecord.model_validate (VDict nested_doc)
     = ResultRecord.model_validate (VDict legacy_doc).
Proof.
  assert (Hwf : metadata_well_formed legacy_doc) by exact I.
  destruct (coerce_old_format_migrates legacy_doc Hwf)
    as (d' & m' & Hrun & _ & _ & _ & _ & _ & _ & _ & _ & Hagain & _ & Hsame).
  assert (E : d' = nested_doc).
  { vm_compute in Hrun. injection Hrun as <-. reflexivity. }
  subst d'. split; [exact Hwf|]. split; [reflexivity|].
  split; [exact Hagain|exact Hsame].
Defined.

(** Counterexample to C8 as stated: an input dictionary whose [metadata]
    entry is null and that carries a legacy field. The item assignment on
    the null raises, and no dictionary comes out. *)
Lemma coerce_old_format_counterexample :
  ResultRecord.coerce_old_format
    (VDict [("metadata", VNone); ("expiration", VStr "2024-01-01T00:00:00Z")])
  = inl TypeError.
Proof. reflexivity. Qed.

(** Witness of C9 on [store_parameters]: the parameters of identifier
    ["id-1"] on the fresh store. *)
Definition parameters_stored : ResultStore.t * World :=
  match ResultStore.store_parameters "id-1" sample (store, world) with
  | Ok _ st => st
  | _ => (store, world)
  end.

Lemma store_parameters_key_mismatch_witness :
  ResultStore.store_parameters "id-1" sample (store, world)
  = Ok tt parameters_stored
  /\ exists record content,
       ResultRecord.serialize record = inr content
       /\ ResultRecordMetadata.storage_key (ResultRecord.metadata record)
          = Some "id-1"
       /\ fs parameters_stored.2 !! (0, "parameters/id-1") = Some content
       /\ fs parameters_stored.2 !! (0, "id-1") = None.
Proof.
  assert (Hrun : ResultStore.store_parameters "id-1" sample (store, world)
                 = Ok tt (parameters_stored.1, parameters_stored.2))
    by (vm_compute; reflexivity).
  split; [exact Hrun|].
  destruct (store_parameters_key_mismatch store parameters_stored.1 world
              parameters_stored.2 0 "id-1" sample eq_refl Hrun)
    as (record & content & Hser & _ & Hkey & Hat & _ & Hnot).
  exists record, content.
  split; [exact Hser|]. split; [exact Hkey|]. split; [exact Hat|].
  rewrite Hnot. vm_compute. reflexivity.
Defined.


End Runs.

(** * More runs on the reference installation *)
Module Scenarios.
Import Reference Runs.

#[local] Existing Instance Runs.codec_lawful.

(** The default serializer is [pickle]; a key template without
    placeholders formats to itself. *)
#[export] Instance runtime : Runtime :=
  {| PREFECT_RESULTS_DEFAULT_SERIALIZER := "pickle";
     _format_user_supplied_storage_key := fun template => ret template |}.

Lemma nobody_contends (key : string) (holder : option string) (w : World) :
  uncontended store w key holder.
Proof. intros lm E. discriminate E. Qed.

Lemma sample_supported : supported (Serializer.mk "json") sample.
Proof. split; [reflexivity|]. eexists. split; vm_compute; reflexivity. Qed.

(** X1 on the fresh store, which has no lock manager. *)
Lemma lock_operations_need_lock_manager_witness :
  ResultStore.lock_manager store = None
  /\ ResultStore.acquire_lock "k" None None (store, world)
     = Raise ConfigurationError (store, world)
  /\ ResultStore.release_lock "k" None (store, world)
     = Raise ConfigurationError (store, world).
Proof.
  destruct (lock_operations_need_lock_manager store world "k" None None eq_refl)
    as (Hacquire & Hrelease & _).
  split; [reflexivity|]. split; [exact Hacquire|exact Hrelease].
Defined.

(** X2: ["h1"] holds the lock of ["k"] and writes it. *)
Lemma holder_writes_locked_key_witness :
  locks locked_world !! (7, "k") = Some "h1"
  /\ exists s1 w1 added,
       ResultStore.write "k" (VInt 5) None (Some "h1") (locked_store, locked_world)
       = Ok tt (s1, w1)
       /\ is_Some (fs w1 !! (0, "k"))
       /\ locks w1 !! (7, "k") = Some "h1"
       /\ trace w1 = (added ++ trace locked_world)%list
       /\ lock_calls added = 0.
Proof.
  split; [reflexivity|].
  destruct (holder_writes_locked_key locked_store locked_world 7 "k" (VInt 5)
              None (Some "h1") (ReferenceCodec.dumps_doc (VInt 5)))
    as (s1 & w1 & added & Hrun & Hfs & _ & Hlocks & Htrace & Hcalls).
  - discriminate.
  - reflexivity.
  - vm_compute. reflexivity.
  - reflexivity.
  - intros ms E. discriminate E.
  - reflexivity.
  - exists s1, w1, added. split; [exact Hrun|].
    split; [rewrite Hfs; cbn; rewrite lookup_insert_eq; eauto|].
    split; [exact Hlocks|]. split; [exact Htrace|exact Hcalls].
Defined.

(** X3: the [pickle] serializer of the reference installation refuses a
    number. *)
Definition pickle_store : ResultStore.t :=
  {| ResultStore.result_storage := Some 0;
     ResultStore.metadata_storage := None;
     ResultStore.lock_manager := None;
     ResultStore.persist_result := true;
     ResultStore.cache_result_in_memory := true;
     ResultStore.serializer := Serializer.mk "pickle";
     ResultStore.storage_key_fn := DEFAULT_STORAGE_KEY_FN |}.

Lemma write_serialization_error_witness :
  dumps "pickle" (VInt 5) = inl TypeError
  /\ exists s1 w1,
       ResultStore.write "k" (VInt 5) None None (pickle_store, world)
       = Raise SerializationError (s1, w1)
       /\ fs w1 = fs world.
Proof.
  split; [reflexivity|].
  destruct (write_serialization_error pickle_store world "k" (VInt 5) None None
              TypeError)
    as (s1 & w1 & Hrun & Hfs & _).
  - discriminate.
  - intros lm E. discriminate E.
  - reflexivity.
  - exists s1, w1. split; [exact Hrun|exact Hfs].
Defined.

(** X4: the metadata backend 1 refuses writes. *)
Definition faulty_metadata_world : World :=
  {| fs := ∅; read_anomaly := ∅; write_fault := {[ 1 := OSError ]}; locks := ∅;
     default_storage := 0; block_document_id := ∅; block_documents := ∅;
     basepath := ∅; uuid_pool := uuid_pool world; uuid_next := 0;
     hostname := "host"; pid := "4242"; thread_id := "1";
     thread_name := "MainThread"; trace := [] |}.

Lemma split_write_is_not_atomic_witness :
  write_fault faulty_metadata_world !! 1 = Some OSError
  /\ exists s1 w1,
       ResultStore.write "k" (VStr "payload") None None
         (split_store, faulty_metadata_world)
       = Raise OSError (s1, w1)
       /\ fs w1 !! (0, "k") = Some "payload"
       /\ fs w1 !! (1, "k") = None.
Proof.
  split; [reflexivity|].
  destruct (split_write_is_not_atomic split_store faulty_metadata_world 1 "k"
              (VStr "payload") None None "payload" OSError)
    as (s1 & w1 & Hrun & Hpayload & Hmeta).
  - discriminate.
  - intros lm E. discriminate E.
  - reflexivity.
  - discriminate.
  - reflexivity.
  - reflexivity.
  - reflexivity.
  - exists s1, w1. split; [exact Hrun|]. split; [exact Hpayload|exact Hmeta].
Defined.

(** X5 on the fresh store. *)
Lemma exists_after_write_witness :
  exists s1 w1 w2,
    ResultStore.write "k" sample None None (store, world) = Ok tt (s1, w1)
    /\ ResultStore.exists_ "k" (s1, w1) = Ok true (s1, w2).
Proof.
  apply (exists_after_write store world "k" sample None None
           (ReferenceCodec.dumps_doc sample)).
  - discriminate.
  - apply nobody_contends.
  - reflexivity.
  - reflexivity.
  - intros ms E. discriminate E.
  - reflexivity.
Defined.

(** X6: ["k"] written twice on the fresh store. *)
Lemma last_write_wins_witness :
  exists s1 w1 s2 w2 r s3 w3,
    ResultStore.write "k" (VInt 1) None None (store, world) = Ok tt (s1, w1)
    /\ ResultStore.write "k" sample (Some "2030-01-01") None (s1, w1)
       = Ok tt (s2, w2)
    /\ ResultStore.read "k" None (s2, w2) = Ok r (s3, w3)
    /\ ResultRecord.result r = sample
    /\ ResultRecord.expiration r = Some "2030-01-01".
Proof.
  apply (last_write_wins store world "k" (VInt 1) sample None (Some "2030-01-01")
           None (ReferenceCodec.dumps_doc (VInt 1))).
  - discriminate.
  - reflexivity.
  - exact sample_supported.
  - apply nobody_contends.
  - reflexivity.
  - reflexivity.
  - intros ms E. discriminate E.
Defined.

(** X7: ["k1"] and ["k2"] on the fresh store. *)
Lemma write_other_key_preserves_witness :
  exists s1 w1 s2 w2 r s3 w3,
    ResultStore.write "k1" sample None None (store, world) = Ok tt (s1, w1)
    /\ ResultStore.write "k2" (VInt 2) None None (s1, w1) = Ok tt (s2, w2)
    /\ ResultStore.read "k1" None (s2, w2) = Ok r (s3, w3)
    /\ ResultRecord.result r = sample.
Proof.
  apply (write_other_key_preserves store world "k1" "k2" sample (VInt 2)
           None None None (ReferenceCodec.dumps_doc (VInt 2))).
  - discriminate.
  - discriminate.
  - discriminate.
  - exact sample_supported.
  - reflexivity.
  - apply nobody_contends.
  - apply nobody_contends.
  - reflexivity.
  - reflexivity.
  - intros ms E. discriminate E.
Defined.

(** X8: the parameters of ["id-1"] on the fresh store. *)
Lemma parameters_roundtrip_witness :
  exists w1 w2,
    ResultStore.store_parameters "id-1" sample (store, world) = Ok tt (store, w1)
    /\ ResultStore.read_parameters "id-1" (store, w1) = Ok sample (store, w2).
Proof.
  apply (parameters_roundtrip store world 0 "id-1" sample).
  - reflexivity.
  - exact sample_supported.
  - reflexivity.
  - reflexivity.
Defined.

(** X9: nothing under ["k"] on the fresh store, and a blob that is not a
    record. *)
Lemma read_propagates_errors_witness :
  (exists st, ResultStore.read "k" None (store, world) = Raise FileNotFoundError st)
  /\ (exists st,
        ResultStore.read "k" None (store, corrupt_world) = Raise ValidationError st).
Proof.
  split.
  - destruct (read_propagates_errors store world "k" None eq_refl
                (nobody_contends "k" None world)) as (_ & Hmissing & _).
    apply Hmissing; reflexivity.
  - destruct (read_propagates_errors store corrupt_world "k" None eq_refl
                (nobody_contends "k" None corrupt_world)) as (_ & _ & Hcorrupt).
    apply (Hcorrupt "garbage"); reflexivity.
Defined.

(** X10 on the record of the number five. *)
Lemma record_encodings_roundtrip_witness :
  supported (ResultRecord.serializer five_record) (ResultRecord.result five_record)
  /\ ResultRecordMetadata.load_bytes
       (Some (ResultRecordMetadata.dump_bytes (ResultRecord.metadata five_record)))
     = inr (ResultRecord.metadata five_record)
  /\ exists content,
       ResultRecord.serialize five_record = inr content
       /\ ResultRecord.deserialize (Some content) = inr five_record.
Proof.
  assert (Hsup : supported (ResultRecord.serializer five_record)
                   (ResultRecord.result five_record)).
  { split; [reflexivity|]. eexists. split; vm_compute; reflexivity. }
  destruct (record_encodings_roundtrip five_record Hsup) as (Hmeta & Hblob & _).
  split; [exact Hsup|]. split; [exact Hmeta|exact Hblob].
Defined.

(** X11: a blob whose [result] is the number five. *)
Lemma deserialize_keeps_non_string_witness :
  ResultRecord.deserialize
    (Some (json_dumps
             (VDict [("metadata", ResultRecordMetadata.to_doc elsewhere_metadata);
                     ("result", VInt 5)])))
  = inr (ResultRecord.mk elsewhere_metadata (VInt 5)).
Proof.
  apply (deserialize_keeps_non_string elsewhere_metadata (VInt 5)).
  - reflexivity.
  - reflexivity.
  - intros s E. discriminate E.
Defined.

(** X12: the legacy blob of [{"a": 1}]. *)
Lemma deserialize_legacy_blob_witness :
  ResultRecord.deserialize
    (Some (json_dumps
             (VDict [("data", VStr (ReferenceCodec.dumps_doc sample));
                     ("expiration", optional_str_doc None);
                     ("serializer", VDict [("type", VStr "json")]);
                     ("prefect_version", VStr "2.19.0")])))
  = inr (ResultRecord.mk
           (ResultRecordMetadata.mk None None (Serializer.mk "json") "2.19.0" None)
           sample).
Proof.
  apply (deserialize_legacy_blob (ReferenceCodec.dumps_doc sample) "json"
           "2.19.0" None sample).
  - reflexivity.
  - vm_compute. reflexivity.
Defined.

(** X13: a reference with nothing in its cache. *)
Definition empty_reference : PersistedResult.t :=
  {| PersistedResult.type := "reference";
     PersistedResult.serializer_type := "json";
     PersistedResult.storage_key := "k";
     PersistedResult.storage_block_id := None;
     PersistedResult.expiration := None;
     PersistedResult.serialize_to_none := false;
     PersistedResult._cache := None;
     PersistedResult._persisted := false;
     PersistedResult._should_cache_object := true;
     PersistedResult._storage_block := Some 0;
     PersistedResult._serializer := Some (Serializer.mk "json") |}.

Lemma reference_write_needs_object_witness :
  PersistedResult._cache empty_reference = None
  /\ PersistedResult.write None (empty_reference, world)
     = Raise ValueError (empty_reference, world).
Proof.
  split; [reflexivity|].
  apply (reference_write_needs_object empty_reference world); reflexivity.
Defined.




(** X18 and X19: the reference [create_result] makes for [{"a": 1}] under
    ["k"], on a store that does not persist and on the fresh store. *)
Definition ephemeral_store : ResultStore.t :=
  {| ResultStore.result_storage := Some 0;
     ResultStore.metadata_storage := None;
     ResultStore.lock_manager := None;
     ResultStore.persist_result := false;
     ResultStore.cache_result_in_memory := true;
     ResultStore.serializer := Serializer.mk "json";
     ResultStore.storage_key_fn := DEFAULT_STORAGE_KEY_FN |}.

Definition created (s : ResultStore.t)
  : PersistedResult.t * (ResultStore.t * World) :=
  match ResultStore.create_result sample (Some "k") None (s, world) with
  | Ok r st => (r, st)
  | _ => (reference, (s, world))
  end.

Lemma create_result_persistence_flag_witness :
  ResultStore.create_result sample (Some "k") None (ephemeral_store, world)
  = Ok (created ephemeral_store).1 (created ephemeral_store).2
  /\ PersistedResult.serialize_model (created ephemeral_store).1 = VNone
  /\ PersistedResult.write None ((created ephemeral_store).1, world)
     = Ok tt ((created ephemeral_store).1, world).
Proof.
  assert (Hrun : ResultStore.create_result sample (Some "k") None
                   (ephemeral_store, world)
                 = Ok (created ephemeral_store).1 (created ephemeral_store).2)
    by (vm_compute; reflexivity).
  destruct (create_result_persistence_flag ephemeral_store world sample (Some "k")
              None _ _ Hrun) as [Hoff _].
  destruct (Hoff eq_refl) as [Hnull Hnoop].
  split; [exact Hrun|]. split; [exact Hnull|apply Hnoop].
Defined.

Lemma create_result_reference_witness :
  ResultStore.create_result sample (Some "k") None (store, world)
  = Ok (created store).1 (created store).2
  /\ PersistedResult._cache (created store).1 = Some sample
  /\ PersistedResult._persisted (created store).1 = false
  /\ PersistedResult._storage_block (created store).1 = Some 0.
Proof.
  assert (Hrun : ResultStore.create_result sample (Some "k") None (store, world)
                 = Ok (created store).1 (created store).2)
    by (vm_compute; reflexivity).
  destruct (create_result_reference store world sample (Some "k") None _ _ Hrun)
    as (Hcache & Hpersisted & _ & _ & _ & Hblock & _).
  split; [exact Hrun|]. split; [exact Hcache|]. split; [exact Hpersisted|exact Hblock].
Defined.

(** X20: the key ["k"] given to the fresh store. *)
Lemma create_result_given_key_witness :
  exists r,
    ResultStore.create_result sample (Some "k") None (store, world)
    = Ok r (store, world)
    /\ PersistedResult.storage_key r = "k"
    /\ PersistedResult.storage_block_id r = None.
Proof.
  apply (create_result_given_key store world sample "k" None).
  discriminate.
Defined.


(** X22: a flow that names its storage block, its serializer and its
    persistence. *)
Definition flow : Flow.t :=
  {| Flow.result_storage := Some (inl 3);
     Flow.result_serializer := Some (inr "pickle");
     Flow.persist_result := Some false;
     Flow.cache_result_in_memory := None |}.

Definition updated_for_flow : ResultStore.t * (ResultStore.t * World) :=
  match ResultStore.update_for_flow flow (store, world) with
  | Ok s' st => (s', st)
  | _ => (store, (store, world))
  end.

Lemma update_for_flow_spec_witness :
  ResultStore.update_for_flow flow (store, world)
  = Ok updated_for_flow.1 updated_for_flow.2
  /\ updated_for_flow.2.1 = store
  /\ ResultStore.result_storage updated_for_flow.1 = Some 3
  /\ ResultStore.persist_result updated_for_flow.1 = false
  /\ ResultStore.cache_result_in_memory updated_for_flow.1 = true.
Proof.
  assert (Hrun : ResultStore.update_for_flow flow (store, world)
                 = Ok updated_for_flow.1 updated_for_flow.2)
    by (vm_compute; reflexivity).
  destruct (update_for_flow_spec store _ world flow _ Hrun)
    as (Hself & _ & _ & _ & _ & Hpersist & Hcache & _ & _ & Hstorage & _).
  split; [exact Hrun|]. split; [exact Hself|].
  split; [exact (Hstorage 3 eq_refl)|]. split; [exact Hpersist|exact Hcache].
Defined.

(** X23: a task that names its storage key. *)
Definition task : Task.t :=
  {| Task.result_storage := None;
     Task.result_serializer := None;
     Task.persist_result := None;
     Task.cache_result_in_memory := Some false;
     Task.result_storage_key := Some "results/daily" |}.

Definition updated_for_task : ResultStore.t * (ResultStore.t * World) :=
  match ResultStore.update_for_task task (store, world) with
  | Ok s' st => (s', st)
  | _ => (store, (store, world))
  end.

Lemma update_for_task_spec_witness :
  ResultStore.update_for_task task (store, world)
  = Ok updated_for_task.1 updated_for_task.2
  /\ ResultStore.storage_key_fn updated_for_task.1
     = _format_user_supplied_storage_key "results/daily"
  /\ ResultStore.cache_result_in_memory updated_for_task.1 = false
  /\ ResultStore.serializer updated_for_task.1 = Serializer.mk "json".
Proof.
  assert (Hrun : ResultStore.update_for_task task (store, world)
                 = Ok updated_for_task.1 updated_for_task.2)
    by (vm_compute; reflexivity).
  destruct (update_for_task_spec store _ world task _ Hrun)
    as (_ & _ & _ & _ & Hkey & _ & Hcache & Hser & _).
  split; [exact Hrun|]. split; [exact Hkey|]. split; [exact Hcache|].
  exact (Hser eq_refl).
Defined.

(** X24: a flow and a task that set nothing, on the fresh store. *)
Lemma update_with_nothing_set_witness :
  ResultStore.update_for_flow (Flow.mk None None None None) (store, world)
  = Ok store (store, world)
  /\ ResultStore.update_for_task (Task.mk None None None None None) (store, world)
     = Ok store (store, world).
Proof.
  apply (proj1 (update_with_nothing_set store world)). discriminate.
Defined.

(** X25: the metadata of ["k"] is on backend 1, the payload it points to
    is not on backend 0. *)
Definition orphan_world : World :=
  set_fs {[ (1, "k") := ResultRecordMetadata.dump_bytes elsewhere_metadata ]} world.

Lemma exists_ignores_missing_payload_witness :
  fs orphan_world !! (0, "elsewhere") = None
  /\ ResultStore.exists_ "k" (split_store, orphan_world)
     = Ok true (split_store, log (EvRead 1 "k") orphan_world)
  /\ exists st,
       ResultStore.read "k" None (split_store, orphan_world)
       = Raise FileNotFoundError st.
Proof.
  split; [reflexivity|].
  apply (exists_ignores_missing_payload split_store orphan_world "k" None 1
           (ResultRecordMetadata.dump_bytes elsewhere_metadata)
           elsewhere_metadata "elsewhere").
  - reflexivity.
  - intros lm E. discriminate E.
  - reflexivity.
  - vm_compute. reflexivity.
  - vm_compute. reflexivity.
  - reflexivity.
  - reflexivity.
  - reflexivity.
Defined.

End Scenarios.
